(** * Authentication and abuse-control core of the FastAPI example

    A shallow embedding of
      - [app/rate_limit.py]  (fixed-window rate limiter),
      - [app/bruteforce.py]  (failure counter and time-boxed lock),
      - [app/security.py]    (access / refresh JWT issuance and verification),
      - [app/routes/auth.py] (login and refresh-token rotation),
    together with models of the three collaborators these modules call:
    the Redis server, the [jose.jwt] codec and the SQL tables behind the
    SQLAlchemy session.

    Conventions.
      - Python exceptions are values of [exn]; a call either returns or
        raises ([outcome]).
      - The Redis server clock is in milliseconds, Python [datetime] values
        are microseconds since the epoch.  Every Redis command and every
        clock read takes the clock value at which it is served as an
        argument, so time may pass between any two of them.
      - [async def] handlers over the SQL session are [coroutine]s: trees whose
        nodes are the [await] points on the session; they can be run to
        completion or interleaved with another request. *)

From Stdlib Require Import ZArith String DecimalString DecimalZ.
From stdpp Require Import base option list gmap strings.

Local Open Scope string_scope.
Local Open Scope list_scope.
Local Open Scope Z_scope.

(** ** Python values shared by all modules *)

Inductive exn : Type :=
| HTTPException (status_code : Z) (detail : string)
                (headers : list (string * string))
| ResponseError (msg : string)       (* redis.exceptions.ResponseError *)
| JWTError                           (* jose: bad signature / malformed *)
| ExpiredSignatureError              (* jose: [exp] is in the past     *)
| JWTClaimsError                     (* jose: ill-typed claim          *)
| MultipleResultsFound               (* sqlalchemy scalar_one_or_none   *)
| IntegrityError                     (* sqlalchemy: constraint violated *)
| ValueError
| TypeError
| KeyError.

Inductive outcome (A : Type) : Type :=
| Return (a : A)
| Raise (e : exn).
Arguments Return {A} a.
Arguments Raise {A} e.

#[global] Instance exn_eq_dec : EqDecision exn.
Proof. solve_decision. Defined.

Definition HTTP_429_TOO_MANY_REQUESTS : Z := 429.

(** [str(n)] and [int(s)] on integers.  [py_int] accepts an optional minus
    sign followed by at least one decimal digit; the other spellings Python
    tolerates (surrounding blanks, a plus sign, underscores) raise
    [ValueError] here. *)
Definition py_str (n : Z) : string := NilEmpty.string_of_int (Z.to_int n).

Definition py_int (s : string) : option Z :=
  match NilEmpty.int_of_string s with
  | Some (Decimal.Pos Decimal.Nil) | Some (Decimal.Neg Decimal.Nil) => None
  | Some d => Some (Z.of_int d)
  | None => None
  end.

(** ** The Redis server

    Only the commands the application issues: INCR, EXPIRE, TTL, EXISTS,
    SET .. EX, DEL.  Values are strings, as in Redis; an entry carries the
    absolute time (ms) at which it expires, if any.  A key is gone once the
    clock is strictly past that time. *)
Module Redis.

Record entry : Type := Entry { val : string; expire_at : option Z }.

Abbreviation store := (gmap string entry).

Definition INT64_MAX : Z := 9223372036854775807.
Definition INT64_MIN : Z := -9223372036854775808.

(** The integer a stored string denotes for INCR: a canonical decimal
    numeral in the signed 64-bit range. *)
Definition int_of_val (s : string) : option Z :=
  match py_int s with
  | Some n =>
      if bool_decide (py_str n = s) && (INT64_MIN <=? n) && (n <=? INT64_MAX)
      then Some n else None
  | None => None
  end.

Definition expired (now : Z) (e : entry) : bool :=
  match expire_at e with
  | Some when => when <? now
  | None => false
  end.

(** The entry a command sees at [key] when served at time [now]. *)
Definition find (key : string) (now : Z) (r : store) : option entry :=
  match r !! key with
  | Some e => if expired now e then None else Some e
  | None => None
  end.

Definition INCR (key : string) (now : Z) (r : store) : outcome Z * store :=
  match find key now r with
  | None => (Return 1, <[key := Entry (py_str 1) None]> r)
  | Some e =>
      match int_of_val (val e) with
      | None =>
          (Raise (ResponseError "ERR value is not an integer or out of range"), r)
      | Some n =>
          if n <? INT64_MAX
          then (Return (n + 1), <[key := Entry (py_str (n + 1)) (expire_at e)]> r)
          else (Raise (ResponseError "ERR increment or decrement would overflow"), r)
      end
  end.

Definition EXPIRE (key : string) (seconds : string) (now : Z) (r : store)
  : outcome Z * store :=
  match py_int seconds with
  | None =>
      (Raise (ResponseError "ERR value is not an integer or out of range"), r)
  | Some secs =>
      match find key now r with
      | None => (Return 0, r)
      | Some e =>
          if secs <=? 0 then (Return 1, delete key r)
          else (Return 1, <[key := Entry (val e) (Some (now + secs * 1000))]> r)
      end
  end.

(** TTL answers -2 for a missing key, -1 for a key without expiry, and
    otherwise the remaining milliseconds rounded to the nearest second. *)
Definition TTL (key : string) (now : Z) (r : store) : Z :=
  match find key now r with
  | None => -2
  | Some e =>
      match expire_at e with
      | None => -1
      | Some when => (Z.max (when - now) 0 + 500) / 1000
      end
  end.

Definition EXISTS (key : string) (now : Z) (r : store) : Z :=
  match find key now r with
  | Some _ => 1
  | None => 0
  end.

(** [SET key value EX seconds]: overwrites value and expiry. *)
Definition SET_EX (key value : string) (seconds : Z) (now : Z) (r : store)
  : outcome bool * store :=
  if seconds <=? 0
  then (Raise (ResponseError "ERR invalid expire time in 'set' command"), r)
  else (Return true, <[key := Entry value (Some (now + seconds * 1000))]> r).

Fixpoint DEL (keys : list string) (now : Z) (r : store) : Z * store :=
  match keys with
  | [] => (0, r)
  | k :: ks =>
      let '(n, r') := DEL ks now (delete k r) in
      ((if find k now r is Some _ then 1 else 0) + n, r')
  end.

(** The Lua script both Python modules send with EVAL; the server runs a
    script as one command, at one clock value.
<<
    local current = redis.call('INCR', KEYS[1])
    if current == 1 then
        redis.call('EXPIRE', KEYS[1], ARGV[1])
    end
    return current
>> *)
Definition incr_expire_script (key1 argv1 : string) (now : Z) (r : store)
  : outcome Z * store :=
  match INCR key1 now r with
  | (Raise e, r') => (Raise e, r')
  | (Return current, r1) =>
      if current =? 1 then
        match EXPIRE key1 argv1 now r1 with
        | (Raise e, r2) => (Raise e, r2)
        | (Return _, r2) => (Return current, r2)
        end
      else (Return current, r1)
  end.

End Redis.

(** ** [app/rate_limit.py] *)
Module rate_limit.

(** What the limiter reads of a Starlette request: [request.client],
    which may be [None], and its [host]. *)
Record Request : Type := { client : option string }.

Definition client_ip (request : Request) : string :=
  match client request with
  | None => "unknown"
  | Some host => host
  end.

Record RateLimit : Type :=
  { key_prefix : string; limit : Z; window_seconds : Z }.

Definition _incr_with_ttl (key : string) (window_seconds : Z)
    (now : Z) (r : Redis.store) : outcome Z * Redis.store :=
  Redis.incr_expire_script key (py_str window_seconds) now r.

Definition _ttl_seconds (key : string) (now : Z) (r : Redis.store) : Z :=
  Redis.TTL key now r.

(** The dependency [_dep] that [limiter(config, key_fn=...)] returns.
    [t_incr] and [t_ttl] are the server times of its two round trips. *)
Definition limiter (config : RateLimit) (key_fn : option (Request -> string))
    (request : Request) (t_incr t_ttl : Z) (r : Redis.store)
  : outcome unit * Redis.store :=
  let ident := match key_fn with
               | Some f => f request
               | None => client_ip request
               end in
  let key := "rl:" +:+ key_prefix config +:+ ":" +:+ ident in
  match _incr_with_ttl key (window_seconds config) t_incr r with
  | (Raise e, r1) => (Raise e, r1)
  | (Return current, r1) =>
      if limit config <? current then
        let retry_after := _ttl_seconds key t_ttl r1 in
        (Raise (HTTPException HTTP_429_TOO_MANY_REQUESTS
                  ("Rate limit exceeded: " +:+ py_str (limit config) +:+ "/"
                     +:+ py_str (window_seconds config) +:+ "s")
                  [("Retry-After", py_str (Z.max retry_after 1))]), r1)
      else (Return tt, r1)
  end.

End rate_limit.

(** ** [app/bruteforce.py] *)
Module bruteforce.

Record BruteForceConfig : Type :=
  { key_prefix : string;
    max_failures : Z;
    window_seconds : Z;
    lock_seconds : Z }.

Definition _incr_with_ttl (key : string) (ttl_seconds : Z)
    (now : Z) (r : Redis.store) : outcome Z * Redis.store :=
  Redis.incr_expire_script key (py_str ttl_seconds) now r.

Definition _ttl (key : string) (now : Z) (r : Redis.store) : Z :=
  Redis.TTL key now r.

Definition _fail_key (cfg : BruteForceConfig) (username ip : string) : string :=
  "bf:" +:+ key_prefix cfg +:+ ":fail:" +:+ username +:+ ":" +:+ ip.

Definition _lock_key (cfg : BruteForceConfig) (username ip : string) : string :=
  "bf:" +:+ key_prefix cfg +:+ ":lock:" +:+ username +:+ ":" +:+ ip.

Definition ensure_not_locked (cfg : BruteForceConfig) (username ip : string)
    (t_exists t_ttl : Z) (r : Redis.store) : outcome unit * Redis.store :=
  let lk := _lock_key cfg username ip in
  let is_locked := Redis.EXISTS lk t_exists r in
  if negb (is_locked =? 0) then
    let retry_after := _ttl lk t_ttl r in
    (Raise (HTTPException HTTP_429_TOO_MANY_REQUESTS
              "Too many login attempts. Try again later."
              [("Retry-After", py_str (Z.max retry_after 1))]), r)
  else (Return tt, r).

Definition register_failure (cfg : BruteForceConfig) (username ip : string)
    (t_incr t_set : Z) (r : Redis.store) : outcome Z * Redis.store :=
  let fk := _fail_key cfg username ip in
  match _incr_with_ttl fk (window_seconds cfg) t_incr r with
  | (Raise e, r1) => (Raise e, r1)
  | (Return current, r1) =>
      if max_failures cfg <=? current then
        let lk := _lock_key cfg username ip in
        match Redis.SET_EX lk "1" (lock_seconds cfg) t_set r1 with
        | (Raise e, r2) => (Raise e, r2)
        | (Return _, r2) => (Return current, r2)
        end
      else (Return current, r1)
  end.

Definition clear_state (cfg : BruteForceConfig) (username ip : string)
    (now : Z) (r : Redis.store) : outcome unit * Redis.store :=
  let '(_, r1) :=
    Redis.DEL [_fail_key cfg username ip; _lock_key cfg username ip] now r in
  (Return tt, r1).

End bruteforce.


(** ** [app/routes/rl_demo.py] and [app/routes/bf_demo.py]: the configurations *)
Module rl_demo.
Definition demo_limit : rate_limit.RateLimit :=
  rate_limit.Build_RateLimit "ping" 5 10.
End rl_demo.

Module bf_demo.
Definition CFG : bruteforce.BruteForceConfig :=
  bruteforce.Build_BruteForceConfig "login-sim" 5 120 60.
End bf_demo.

(** ** Sequences of calls *)

(** The key [limiter] counts an identity under. *)
Definition rl_key (config : rate_limit.RateLimit) (ident : string) : string :=
  "rl:" +:+ rate_limit.key_prefix config +:+ ":" +:+ ident.

(** A client sending requests one after the other: each pair holds the
    server times of the two round trips of one [limiter] call. *)
Fixpoint limiter_calls (config : rate_limit.RateLimit)
    (key_fn : option (rate_limit.Request -> string))
    (request : rate_limit.Request) (times : list (Z * Z)) (r : Redis.store)
  : list (outcome unit) * Redis.store :=
  match times with
  | [] => ([], r)
  | (t_incr, t_ttl) :: rest =>
      let '(o, r1) := rate_limit.limiter config key_fn request t_incr t_ttl r in
      let '(os, r2) := limiter_calls config key_fn request rest r1 in
      (o :: os, r2)
  end.

(** What a call answers once the counter has reached [count]. *)
Definition rate_verdict (config : rate_limit.RateLimit) (count retry_after : Z)
  : outcome unit :=
  if rate_limit.limit config <? count then
    Raise (HTTPException 429
             ("Rate limit exceeded: " +:+ py_str (rate_limit.limit config) +:+ "/"
                +:+ py_str (rate_limit.window_seconds config) +:+ "s")
             [("Retry-After", py_str (Z.max retry_after 1))])
  else Return tt.

(** Failed attempts for one (username, ip), one after the other; each pair
    holds the server times of the EVAL and of the SET of one call. *)
Fixpoint register_failures (cfg : bruteforce.BruteForceConfig)
    (username ip : string) (times : list (Z * Z)) (r : Redis.store)
  : list (outcome Z) * Redis.store :=
  match times with
  | [] => ([], r)
  | (t_incr, t_set) :: rest =>
      let '(o, r1) := bruteforce.register_failure cfg username ip t_incr t_set r in
      let '(os, r2) := register_failures cfg username ip rest r1 in
      (o :: os, r2)
  end.

(** The lock a failure installs once the threshold is reached. *)
Definition with_lock (cfg : bruteforce.BruteForceConfig) (username ip : string)
    (current t_set : Z) (r : Redis.store) : Redis.store :=
  if bruteforce.max_failures cfg <=? current
  then <[bruteforce._lock_key cfg username ip :=
           Redis.Entry "1" (Some (t_set + bruteforce.lock_seconds cfg * 1000))]> r
  else r.


(** ** JSON claims and [jose.jwt]

    A token is modelled symbolically: the compact serialisation is kept as
    its three parts, and the HMAC over header and payload is the term
    [Signature key alg payload], so a signature verifies exactly when it
    was made with the same key and algorithm over the same payload.
    Strings that are not three well-formed parts are [Malformed]. *)

Inductive json : Type :=
| JStr (s : string)
| JInt (n : Z).

#[global] Instance json_eq_dec : EqDecision json.
Proof. solve_decision. Defined.

Abbreviation claims := (gmap string json).

Module jwt.

Inductive signature : Type :=
| Signature (key algorithm : string) (payload : claims).

#[global] Instance signature_eq_dec : EqDecision signature.
Proof. solve_decision. Defined.

Inductive token : Type :=
| Malformed (raw : string)
| Compact (alg : string) (payload : claims) (sig : signature).

#[global] Instance token_eq_dec : EqDecision token.
Proof. solve_decision. Defined.

Definition encode (payload : claims) (key algorithm : string) : token :=
  Compact algorithm payload (Signature key algorithm payload).

(** The verifier's clock: [timegm(datetime.utcnow().utctimetuple())],
    whole seconds, from a clock value in microseconds. *)
Definition unix_seconds (now : Z) : Z := now / 1000000.

(** [int(claims[name])] as the claim validators use it. *)
Definition numeric_date (v : json) : option Z :=
  match v with
  | JInt n => Some n
  | JStr s => py_int s
  end.

Definition str_or_absent (v : option json) : bool :=
  match v with
  | Some (JInt _) => false
  | _ => true
  end.

(** The claim checks that apply to the claims this application issues:
    [iat] and [exp] must be integers, [exp] must not lie before the
    verifier's clock, [sub] and [jti] must be strings. *)
Definition validate_claims (payload : claims) (now : Z) : outcome claims :=
  match numeric_date <$> payload !! "iat" with
  | Some None => Raise JWTClaimsError
  | _ =>
      match numeric_date <$> payload !! "exp" with
      | Some None => Raise JWTClaimsError
      | Some (Some exp) =>
          if exp <? unix_seconds now then Raise ExpiredSignatureError
          else if str_or_absent (payload !! "sub")
                  && str_or_absent (payload !! "jti")
               then Return payload else Raise JWTClaimsError
      | None =>
          if str_or_absent (payload !! "sub")
             && str_or_absent (payload !! "jti")
          then Return payload else Raise JWTClaimsError
      end
  end.

Definition decode (tok : token) (key : string) (algorithms : list string)
    (now : Z) : outcome claims :=
  match tok with
  | Malformed _ => Raise JWTError
  | Compact alg payload sig =>
      if bool_decide (alg ∈ algorithms)
         && bool_decide (sig = Signature key alg payload)
      then validate_claims payload now
      else Raise JWTError
  end.

End jwt.

(** ** [app/security.py] *)

(** [passlib]'s [CryptContext], as far as it is used. *)
Record CryptContext : Type :=
  { hash : string -> string;
    verify : string -> string -> bool }.

(** The values read from the environment when the module is imported. *)
Record Settings : Type :=
  { JWT_SECRET : string;
    ACCESS_MIN : Z;
    REFRESH_DAYS : Z;
    _pwd : CryptContext }.

(** The defaults of [os.getenv]; [plain_context] stands in for bcrypt where
    an example has to be evaluated. *)
Definition plain_context : CryptContext :=
  {| hash := fun password => "$plain$" +:+ password;
     verify := fun password password_hash =>
                 bool_decide (password_hash = "$plain$" +:+ password) |}.

Definition default_settings : Settings :=
  {| JWT_SECRET := "dev-secret"; ACCESS_MIN := 15; REFRESH_DAYS := 7;
     _pwd := plain_context |}.

Module security.

Definition JWT_ALG : string := "HS256".

Section with_settings.
Variable env : Settings.

Definition hash_password (password : string) : string :=
  hash (_pwd env) password.

Definition verify_password (password password_hash : string) : bool :=
  verify (_pwd env) password password_hash.

(** [int(dt.timestamp())]: whole seconds, truncated towards zero. *)
Definition int_timestamp (dt : Z) : Z := dt ÷ 1000000.

Definition timedelta_minutes (m : Z) : Z := m * 60 * 1000000.
Definition timedelta_days (d : Z) : Z := d * 86400 * 1000000.

(** [now] is what [_utcnow()] returns, [jti] what [str(uuid.uuid4())]
    returns. *)
Definition create_access_token (user_id : Z) (role : string)
    (now : Z) (jti : string) : jwt.token :=
  let payload : claims :=
    {[ "type" := JStr "access";
       "sub" := JStr (py_str user_id);
       "role" := JStr role;
       "iat" := JInt (int_timestamp now);
       "exp" := JInt (int_timestamp (now + timedelta_minutes (ACCESS_MIN env)));
       "jti" := JStr jti ]} in
  jwt.encode payload (JWT_SECRET env) JWT_ALG.

Definition create_refresh_token (user_id : Z) (now : Z) (jti : string)
  : jwt.token * Z :=
  let exp_dt := now + timedelta_days (REFRESH_DAYS env) in
  let payload : claims :=
    {[ "type" := JStr "refresh";
       "sub" := JStr (py_str user_id);
       "iat" := JInt (int_timestamp now);
       "exp" := JInt (int_timestamp exp_dt);
       "jti" := JStr jti ]} in
  (jwt.encode payload (JWT_SECRET env) JWT_ALG, exp_dt).

Definition decode_token (token : jwt.token) (now : Z) : outcome claims :=
  jwt.decode token (JWT_SECRET env) [JWT_ALG] now.

End with_settings.
End security.

(** ** [app/models.py] and the tables behind the session *)

Module UserORM.
Record t : Type :=
  { id : Z; username : string; password_hash : string; role : string }.
End UserORM.

Module RefreshTokenORM.
Record t : Type :=
  { id : Z; jti : string; user_id : Z; expires_at : Z; revoked : bool }.

Definition set_revoked (v : bool) (row : t) : t :=
  {| id := id row; jti := jti row; user_id := user_id row;
     expires_at := expires_at row; revoked := v |}.
End RefreshTokenORM.

Record TokenPair : Type :=
  { access_token : jwt.token;
    refresh_token : jwt.token;
    token_type : string }.

(** The committed state of the two tables, with the sequence behind the
    serial primary key of [refresh_tokens]. *)
Record database : Type :=
  { users : list UserORM.t;
    refresh_tokens : list RefreshTokenORM.t;
    refresh_tokens_id_seq : Z }.

(** [Result.scalar_one_or_none()] *)
Definition scalar_one_or_none {A : Type} (rows : list A) : outcome (option A) :=
  match rows with
  | [] => Return None
  | [row] => Return (Some row)
  | _ => Raise MultipleResultsFound
  end.

(** ** Coroutines over the session

    A handler runs on its own up to an [await] on the session; the awaited
    statement is served by the database as one step, and the handler goes
    on with its answer.  A statement that fails raises in the handler,
    which none of the handlers below catches. *)
Inductive coroutine (A : Type) : Type :=
| Done (o : outcome A)
| Await {R : Type} (stmt : database -> outcome R * database) (k : R -> coroutine A).
Arguments Done {A} o.
Arguments Await {A R} stmt k.

Fixpoint run {A : Type} (t : coroutine A) (db : database) : outcome A * database :=
  match t with
  | Done o => (o, db)
  | Await stmt k =>
      match stmt db with
      | (Return x, db') => run (k x) db'
      | (Raise e, db') => (Raise e, db')
      end
  end.

(** One step of a handler: up to and including its next awaited statement. *)
Definition step {A : Type} (t : coroutine A) (db : database) : coroutine A * database :=
  match t with
  | Done o => (Done o, db)
  | Await stmt k =>
      match stmt db with
      | (Return x, db') => (k x, db')
      | (Raise e, db') => (Done (Raise e), db')
      end
  end.

(** Two requests served concurrently: the schedule says whose statement the
    database serves next ([true]: the first request); when it is used up,
    the first request runs to its end, then the second. *)
Fixpoint interleave {A B : Type} (schedule : list bool)
    (ta : coroutine A) (tb : coroutine B) (db : database)
  : outcome A * outcome B * database :=
  match schedule with
  | [] =>
      let '(oa, db1) := run ta db in
      let '(ob, db2) := run tb db1 in
      (oa, ob, db2)
  | true :: rest =>
      let '(ta', db') := step ta db in interleave rest ta' tb db'
  | false :: rest =>
      let '(tb', db') := step tb db in interleave rest ta tb' db'
  end.

(** The statements the handlers await. *)
Module session.

(** [select(UserORM).where(UserORM.username == name)] *)
Definition select_user_by_username (name : string) (db : database)
  : outcome (list UserORM.t) * database :=
  (Return (List.filter (fun u => bool_decide (UserORM.username u = name))
             (users db)), db).

(** [select(UserORM).where(UserORM.id == user_id)] *)
Definition select_user_by_id (user_id : Z) (db : database)
  : outcome (list UserORM.t) * database :=
  (Return (List.filter (fun u => UserORM.id u =? user_id) (users db)), db).

(** [select(RefreshTokenORM).where(RefreshTokenORM.jti == jti)]; a missing
    claim compares as NULL and selects nothing. *)
Definition select_refresh_token_by_jti (jti : option json) (db : database)
  : outcome (list RefreshTokenORM.t) * database :=
  (Return (List.filter
             (fun row => bool_decide (jti = Some (JStr (RefreshTokenORM.jti row))))
             (refresh_tokens db)), db).

(** [rt.revoked = True; await db.commit()]: an UPDATE of the row with
    [rt]'s primary key. *)
Definition commit_revoked (rt : RefreshTokenORM.t) (db : database)
  : outcome unit * database :=
  (Return tt,
   {| users := users db;
      refresh_tokens :=
        map (fun row =>
               if RefreshTokenORM.id row =? RefreshTokenORM.id rt
               then RefreshTokenORM.set_revoked true row else row)
            (refresh_tokens db);
      refresh_tokens_id_seq := refresh_tokens_id_seq db |}).

(** [db.add(RefreshTokenORM(...)); await db.commit()]: an INSERT that takes
    its id from the sequence and is refused when the primary key or [jti]
    is taken or the user row is missing. *)
Definition commit_add_refresh_token (jti : string) (user_id expires_at : Z)
    (revoked : bool) (db : database) : outcome unit * database :=
  let new_id := refresh_tokens_id_seq db + 1 in
  let row := RefreshTokenORM.Build_t new_id jti user_id expires_at revoked in
  if existsb (fun r => (RefreshTokenORM.id r =? new_id)
                       || bool_decide (RefreshTokenORM.jti r = jti))
       (refresh_tokens db)
     || negb (existsb (fun u => UserORM.id u =? user_id) (users db))
  then (Raise IntegrityError,
        {| users := users db; refresh_tokens := refresh_tokens db;
           refresh_tokens_id_seq := new_id |})
  else (Return tt,
        {| users := users db;
           refresh_tokens := refresh_tokens db ++ [row];
           refresh_tokens_id_seq := new_id |}).

End session.

(** ** [app/routes/auth.py] *)
Module auth.

(** The clock values and random ids a handler draws while it runs: the
    verifier's clock when the presented token is decoded, [_utcnow()] and
    [uuid4()] for the new access and refresh tokens, and the verifier's
    clock when the new refresh token is decoded again. *)
Record ambient : Type :=
  { t_verify : Z;
    t_access : Z; jti_access : string;
    t_refresh : Z; jti_refresh : string;
    t_verify_new : Z }.

(** The endpoints registered on [router = APIRouter(prefix="/auth")]. *)
Inductive endpoint : Type :=
| ep_register | ep_login | ep_refresh_token | ep_me | ep_admin_only.

Definition router : list (string * string * endpoint) :=
  [ ("POST", "/auth/register", ep_register);
    ("POST", "/auth/login", ep_login);
    ("POST", "/auth/refresh", ep_refresh_token);
    ("GET", "/auth/me", ep_me);
    ("GET", "/auth/admin-only", ep_admin_only) ].

(** The endpoint a request is routed to, if any (none: 404 or 405). *)
Definition route (method path : string) : option endpoint :=
  snd <$> List.find (fun r => bool_decide (fst r = (method, path))) router.

(** A request that matches no route of the router is answered without
    running a handler: 405 when only the method differs, 404 otherwise. *)
Definition dispatch {A : Type} (method path : string)
    (handlers : endpoint -> A) (not_routed : exn -> A) : A :=
  match route method path with
  | Some ep => handlers ep
  | None =>
      if existsb (fun r => bool_decide (snd (fst r) = path)) router
      then not_routed (HTTPException 405 "Method Not Allowed" [])
      else not_routed (HTTPException 404 "Not Found" [])
  end.

(** [int(claims.get("sub"))] *)
Definition int_of_claim (v : option json) : outcome Z :=
  match v with
  | None => Raise TypeError
  | Some (JInt n) => Return n
  | Some (JStr s) =>
      match py_int s with
      | Some n => Return n
      | None => Raise ValueError
      end
  end.

Section with_settings.
Variable env : Settings.

Definition unauthorized {A : Type} (detail : string) : coroutine A :=
  Done (Raise (HTTPException 401 detail [])).

Definition login (username password : string) (amb : ambient) : coroutine TokenPair :=
  Await (session.select_user_by_username username) (fun res =>
  match scalar_one_or_none res with
  | Raise e => Done (Raise e)
  | Return user =>
      match
        match user with
        | Some u =>
            if security.verify_password env password (UserORM.password_hash u)
            then Some u else None
        | None => None
        end
      with
      | None => unauthorized "Invalid credentials"
      | Some user =>
          let access :=
            security.create_access_token env (UserORM.id user)
              (UserORM.role user) (t_access amb) (jti_access amb) in
          let '(refresh, refresh_exp) :=
            security.create_refresh_token env (UserORM.id user)
              (t_refresh amb) (jti_refresh amb) in
          match security.decode_token env refresh (t_verify_new amb) with
          | Raise e => Done (Raise e)
          | Return refresh_claims =>
              match refresh_claims !! "jti" with
              | None => Done (Raise KeyError)
              | Some (JInt _) => Done (Raise TypeError)
              | Some (JStr new_jti) =>
                  Await (session.commit_add_refresh_token new_jti
                           (UserORM.id user) refresh_exp false)
                    (fun _ =>
                       Done (Return (Build_TokenPair access refresh "bearer")))
              end
          end
      end
  end).

Definition refresh_token (refresh_token : jwt.token) (amb : ambient)
  : coroutine TokenPair :=
  match security.decode_token env refresh_token (t_verify amb) with
  | Raise _ => unauthorized "Invalid or expired refresh token"
  | Return claims =>
      if negb (bool_decide (claims !! "type" = Some (JStr "refresh")))
      then unauthorized "Not a refresh token"
      else
        let jti := claims !! "jti" in
        match int_of_claim (claims !! "sub") with
        | Raise e => Done (Raise e)
        | Return user_id =>
            Await (session.select_refresh_token_by_jti jti) (fun res =>
            match scalar_one_or_none res with
            | Raise e => Done (Raise e)
            | Return None => unauthorized "Refresh token revoked or unknown"
            | Return (Some rt) =>
                if RefreshTokenORM.revoked rt
                then unauthorized "Refresh token revoked or unknown"
                else
                  Await (session.commit_revoked rt) (fun _ =>
                  Await (session.select_user_by_id user_id) (fun ures =>
                  match scalar_one_or_none ures with
                  | Raise e => Done (Raise e)
                  | Return None => unauthorized "User not found"
                  | Return (Some user) =>
                      let access :=
                        security.create_access_token env (UserORM.id user)
                          (UserORM.role user) (t_access amb) (jti_access amb) in
                      let '(new_refresh, new_refresh_exp) :=
                        security.create_refresh_token env (UserORM.id user)
                          (t_refresh amb) (jti_refresh amb) in
                      match security.decode_token env new_refresh
                              (t_verify_new amb) with
                      | Raise e => Done (Raise e)
                      | Return new_claims =>
                          match new_claims !! "jti" with
                          | None => Done (Raise KeyError)
                          | Some (JInt _) => Done (Raise TypeError)
                          | Some (JStr new_jti) =>
                              Await (session.commit_add_refresh_token new_jti
                                       (UserORM.id user) new_refresh_exp false)
                                (fun _ =>
                                   Done (Return (Build_TokenPair access
                                                   new_refresh "bearer")))
                          end
                      end
                  end))
            end)
        end
  end.

End with_settings.
End auth.

(** ** The stages of [refresh_token]

    The handler between two of its awaits, named so that lemmas can speak
    about a request that has been served up to some statement. *)
Section stages.
Variable env : Settings.

(** What the handler reads off the presented token before its first
    statement: the [jti] claim and the user id. *)
Definition presents (token : jwt.token) (now : Z)
    (jti : option json) (user_id : Z) : Prop :=
  exists claims,
    security.decode_token env token now = Return claims
    /\ claims !! "type" = Some (JStr "refresh")
    /\ claims !! "jti" = jti
    /\ auth.int_of_claim (claims !! "sub") = Return user_id.

(** After the user row has been found: mint the pair, read the new [jti]
    back, store its row, answer. *)
Definition issue_pair (user : UserORM.t) (amb : auth.ambient) : coroutine TokenPair :=
  let access :=
    security.create_access_token env (UserORM.id user) (UserORM.role user)
      (auth.t_access amb) (auth.jti_access amb) in
  let '(refresh, refresh_exp) :=
    security.create_refresh_token env (UserORM.id user)
      (auth.t_refresh amb) (auth.jti_refresh amb) in
  match security.decode_token env refresh (auth.t_verify_new amb) with
  | Raise e => Done (Raise e)
  | Return refresh_claims =>
      match refresh_claims !! "jti" with
      | None => Done (Raise KeyError)
      | Some (JInt _) => Done (Raise TypeError)
      | Some (JStr new_jti) =>
          Await (session.commit_add_refresh_token new_jti (UserORM.id user)
                   refresh_exp false)
            (fun _ => Done (Return (Build_TokenPair access refresh "bearer")))
      end
  end.

(** After the [await db.commit()] that revokes the presented row. *)
Definition after_revoke (user_id : Z) (amb : auth.ambient) : coroutine TokenPair :=
  Await (session.select_user_by_id user_id) (fun ures =>
  match scalar_one_or_none ures with
  | Raise e => Done (Raise e)
  | Return None => auth.unauthorized "User not found"
  | Return (Some user) => issue_pair user amb
  end).

(** After the lookup of the presented [jti]. *)
Definition after_lookup (user_id : Z) (amb : auth.ambient)
    (res : list RefreshTokenORM.t) : coroutine TokenPair :=
  match scalar_one_or_none res with
  | Raise e => Done (Raise e)
  | Return None => auth.unauthorized "Refresh token revoked or unknown"
  | Return (Some rt) =>
      if RefreshTokenORM.revoked rt
      then auth.unauthorized "Refresh token revoked or unknown"
      else Await (session.commit_revoked rt) (fun _ => after_revoke user_id amb)
  end.

End stages.

(** The rows a lookup by [jti] selects, and the table after the UPDATE of
    the rotation. *)
Definition rows_with_jti (jti : option json) (db : database)
  : list RefreshTokenORM.t :=
  List.filter
    (fun row => bool_decide (jti = Some (JStr (RefreshTokenORM.jti row))))
    (refresh_tokens db).

Definition revoke_row (rt : RefreshTokenORM.t) (db : database) : database :=
  snd (session.commit_revoked rt db).

(** No row stands in the way of an INSERT with this [jti]. *)
Definition no_conflict (jti : string) (db : database) : Prop :=
  Forall (fun r => RefreshTokenORM.id r <> refresh_tokens_id_seq db + 1
                   /\ RefreshTokenORM.jti r <> jti) (refresh_tokens db).

(** Every statement a handler still has to await keeps [Inv]. *)
Inductive keeps (Inv : database -> Prop) {A : Type} : coroutine A -> Prop :=
| keeps_done (o : outcome A) : keeps Inv (Done o)
| keeps_await {R : Type} (stmt : database -> outcome R * database)
    (k : R -> coroutine A) :
    (forall db, Inv db -> Inv (snd (stmt db))) ->
    (forall x, keeps Inv (k x)) ->
    keeps Inv (Await stmt k).

(** ** Example data: one user, one login *)

Definition alice : UserORM.t :=
  UserORM.Build_t 1 "alice" (security.hash_password default_settings "alice12345")
    "user".

Definition alice_db : database := Build_database [alice] [] 0.

(** Clock values (microseconds) and ids drawn by three requests. *)
Definition first_draw : auth.ambient :=
  auth.Build_ambient 1700000000000000
    1700000000000100 "a-0001" 1700000000000200 "r-0001" 1700000000000300.

Definition second_draw : auth.ambient :=
  auth.Build_ambient 1700000060000000
    1700000060000100 "a-0002" 1700000060000200 "r-0002" 1700000060000300.

Definition third_draw : auth.ambient :=
  auth.Build_ambient 1700000061000000
    1700000061000100 "a-0003" 1700000061000200 "r-0003" 1700000061000300.

(** A clock more than [REFRESH_DAYS] later. *)
Definition late_draw : auth.ambient :=
  auth.Build_ambient 1700700000000000
    1700700000000100 "a-0004" 1700700000000200 "r-0004" 1700700000000300.

(** Alice logs in, then presents the refresh token she was given. *)
Definition alice_token : jwt.token :=
  fst (security.create_refresh_token default_settings 1 1700000000000200 "r-0001").

Definition alice_row : RefreshTokenORM.t :=
  RefreshTokenORM.Build_t 1 "r-0001" 1 (1700000000000200 + 7 * 86400 * 1000000)
    false.

Definition login_db : database :=
  snd (run (auth.login default_settings "alice" "alice12345" first_draw) alice_db).

Definition rotated : outcome TokenPair * database :=
  run (auth.refresh_token default_settings alice_token second_draw) login_db.




(** * Further parts of the application *)

(** ** More Redis commands: GET and SET without expiry *)
Module RedisMore.



End RedisMore.

(** ** [app/cache.py]: the version counter of the list cache *)
Module cache.




End cache.

(** ** [app/routes/bf_demo.py]: the simulated login *)
Module bf_demo_login.

Record LoginSimPayload : Type := { username : string; password : string }.

(** The JSON object the endpoint answers with. *)
Record answer : Type :=
  { ok : bool; message : string; failures_for_this_user_ip : option Z }.

(** Server times of the Redis round trips of one request. *)
Record round_trips : Type :=
  { at_exists : Z; at_ttl : Z; at_incr : Z; at_set : Z; at_delete : Z }.

Section login_sim.
(** Python's [str.strip] followed by [str.lower]. *)
Variable normalize : string -> string.

Definition login_sim (payload : LoginSimPayload) (request : rate_limit.Request)
    (at_ : round_trips) (r : Redis.store) : outcome answer * Redis.store :=
  let ip := rate_limit.client_ip request in
  let username := normalize (username payload) in
  match bruteforce.ensure_not_locked bf_demo.CFG username ip
          (at_exists at_) (at_ttl at_) r with
  | (Raise e, r1) => (Raise e, r1)
  | (Return _, r1) =>
      let ok := bool_decide (password payload = "letmein") in
      if negb ok then
        match bruteforce.register_failure bf_demo.CFG username ip
                (at_incr at_) (at_set at_) r1 with
        | (Raise e, r2) => (Raise e, r2)
        | (Return count, r2) =>
            (Return {| ok := false; message := "Invalid credentials";
                       failures_for_this_user_ip := Some count |}, r2)
        end
      else
        match bruteforce.clear_state bf_demo.CFG username ip (at_delete at_) r1 with
        | (Raise e, r2) => (Raise e, r2)
        | (Return _, r2) =>
            (Return {| ok := true; message := "Login successful (simulated)";
                       failures_for_this_user_ip := None |}, r2)
        end
  end.

End login_sim.
End bf_demo_login.

(** ** Sequencing coroutines: a dependency runs before the handler *)
Fixpoint bind {A B : Type} (c : coroutine A) (k : A -> coroutine B)
  : coroutine B :=
  match c with
  | Done (Return a) => k a
  | Done (Raise e) => Done (Raise e)
  | Await stmt k' => Await stmt (fun x => bind (k' x) k)
  end.

(** ** [app/deps.py] *)
Module deps.
Section with_settings.
Variable env : Settings.

(** [int(claims["sub"])] *)
Definition int_of_item (v : option json) : outcome Z :=
  match v with
  | None => Raise KeyError
  | Some _ => auth.int_of_claim v
  end.

Definition get_current_user (token : jwt.token) (now : Z)
  : coroutine UserORM.t :=
  match security.decode_token env token now with
  | Raise _ => auth.unauthorized "Invalid or expired access token"
  | Return claims =>
      if negb (bool_decide (claims !! "type" = Some (JStr "access")))
      then auth.unauthorized "Not an access token"
      else
        match int_of_item (claims !! "sub") with
        | Raise e => Done (Raise e)
        | Return user_id =>
            Await (session.select_user_by_id user_id) (fun res =>
            match scalar_one_or_none res with
            | Raise e => Done (Raise e)
            | Return None => auth.unauthorized "User not found"
            | Return (Some user) => Done (Return user)
            end)
        end
  end.

(** The guard [_guard] that [require_role(required)] returns, with its
    dependency on [get_current_user]. *)
Definition require_role (required : string) (token : jwt.token) (now : Z)
  : coroutine UserORM.t :=
  bind (get_current_user token now) (fun user =>
    if negb (bool_decide (UserORM.role user = required))
    then Done (Raise (HTTPException 403 "Forbidden" []))
    else Done (Return user)).

End with_settings.
End deps.

(** ** [app/routes/auth.py]: the remaining endpoints *)

Record UserPublic : Type :=
  { public_id : Z; public_username : string; public_role : string }.

(** [UserPublic.model_validate(user)] *)
Definition model_validate (user : UserORM.t) : UserPublic :=
  {| public_id := UserORM.id user;
     public_username := UserORM.username user;
     public_role := UserORM.role user |}.

Module session_users.

(** [db.add(UserORM(...)); await db.commit(); await db.refresh(user)]: an
    INSERT that is refused when the primary key or the username is taken.
    [new_id] is the id the sequence of the table hands out.  No statement
    of the application updates or deletes a user row, so the reload reads
    back the row as it was inserted; it is folded into the INSERT. *)
Definition commit_add_user (new_id : Z) (username password_hash role : string)
    (db : database) : outcome UserORM.t * database :=
  let row := UserORM.Build_t new_id username password_hash role in
  if existsb (fun u => (UserORM.id u =? new_id)
                       || bool_decide (UserORM.username u = username))
       (users db)
  then (Raise IntegrityError, db)
  else (Return row,
        {| users := users db ++ [row];
           refresh_tokens := refresh_tokens db;
           refresh_tokens_id_seq := refresh_tokens_id_seq db |}).

End session_users.

Module auth_endpoints.
Section with_settings.
Variable env : Settings.

(** [register], on the two fields of a [payload] that passed [UserCreate]'s
    validation.  [hash_password] stands for one run of the password
    context, with the salt it draws. *)
Definition register (username password : string) (new_id : Z)
  : coroutine UserPublic :=
  Await (session.select_user_by_username username) (fun existing =>
  match scalar_one_or_none existing with
  | Raise e => Done (Raise e)
  | Return (Some _) =>
      Done (Raise (HTTPException 400 "Username already exists" []))
  | Return None =>
      Await (session_users.commit_add_user new_id username
               (security.hash_password env password) "user")
        (fun user => Done (Return (model_validate user)))
  end).

Definition me (token : jwt.token) (now : Z) : coroutine UserPublic :=
  bind (deps.get_current_user env token now) (fun user =>
    Done (Return (model_validate user))).

Definition admin_only (token : jwt.token) (now : Z) : coroutine string :=
  bind (deps.require_role env "admin" token now) (fun user =>
    Done (Return ("Hello admin " +:+ UserORM.username user +:+ "!"))).

End with_settings.
End auth_endpoints.

(** ** Vocabulary for the properties of the added code *)



(** The identity a request is counted under. *)
Definition identity_of (key_fn : option (rate_limit.Request -> string))
    (request : rate_limit.Request) : string :=
  match key_fn with
  | Some f => f request
  | None => rate_limit.client_ip request
  end.




(** A token the application has not signed: not a compact serialisation,
    another algorithm in its header, or a signature that is not the one
    [JWT_SECRET] gives for its header and payload. *)
Definition forged (env : Settings) (token : jwt.token) : Prop :=
  match token with
  | jwt.Malformed _ => True
  | jwt.Compact alg payload sig =>
      alg <> security.JWT_ALG
      \/ sig <> jwt.Signature (JWT_SECRET env) alg payload
  end.

(** A token is unexpired for a verifier whose clock, in whole seconds, has
    not passed the [exp] it was issued with. *)
Definition access_unexpired (env : Settings) (issued now : Z) : Prop :=
  jwt.unix_seconds now
  <= security.int_timestamp (issued + security.timedelta_minutes (ACCESS_MIN env)).

Definition refresh_unexpired (env : Settings) (issued now : Z) : Prop :=
  jwt.unix_seconds now
  <= security.int_timestamp (issued + security.timedelta_days (REFRESH_DAYS env)).

(** A name without the separator of the brute-force keys. *)
Fixpoint colon_free (s : string) : bool :=
  match s with
  | EmptyString => true
  | String c rest =>
      negb (bool_decide (String c EmptyString = ":")) && colon_free rest
  end.

(** A row of [refresh_tokens] is still in the table, as it was or revoked. *)
Definition survives (row : RefreshTokenORM.t) (db : database) : Prop :=
  In row (refresh_tokens db)
  \/ In (RefreshTokenORM.set_revoked true row) (refresh_tokens db).

(** The requests the auth router serves, each with what the server draws
    while serving it (the id from the users sequence, the clock values and
    random ids, the verifier's clock), and what each is answered. *)
Inductive request : Type :=
| Register (username password : string) (new_id : Z)
| Login (username password : string) (amb : auth.ambient)
| Refresh (token : jwt.token) (amb : auth.ambient)
| Me (token : jwt.token) (now : Z)
| AdminOnly (token : jwt.token) (now : Z).

Inductive response : Type :=
| Tokens (pair : TokenPair)
| Public (user : UserPublic)
| Message (text : string).

Definition serve (env : Settings) (rq : request) : coroutine response :=
  match rq with
  | Register username password new_id =>
      bind (auth_endpoints.register env username password new_id)
        (fun user => Done (Return (Public user)))
  | Login username password amb =>
      bind (auth.login env username password amb)
        (fun pair => Done (Return (Tokens pair)))
  | Refresh token amb =>
      bind (auth.refresh_token env token amb)
        (fun pair => Done (Return (Tokens pair)))
  | Me token now =>
      bind (auth_endpoints.me env token now)
        (fun user => Done (Return (Public user)))
  | AdminOnly token now =>
      bind (auth_endpoints.admin_only env token now)
        (fun text => Done (Return (Message text)))
  end.

(** Requests served one after the other. *)
Fixpoint serve_all (env : Settings) (rqs : list request) (db : database)
  : list (outcome response) * database :=
  match rqs with
  | [] => ([], db)
  | rq :: rest =>
      let '(o, db1) := run (serve env rq) db in
      let '(os, db2) := serve_all env rest db1 in
      (o :: os, db2)
  end.

(** The tables as the constraints of [app/models.py] keep them: ids and
    usernames of users unique, ids and [jti]s of refresh tokens unique,
    ids of refresh tokens handed out by the sequence. *)
Record well_formed (db : database) : Prop :=
  { user_ids_unique : NoDup (map UserORM.id (users db));
    usernames_unique : NoDup (map UserORM.username (users db));
    token_ids_unique : NoDup (map RefreshTokenORM.id (refresh_tokens db));
    jtis_unique : NoDup (map RefreshTokenORM.jti (refresh_tokens db));
    token_ids_issued :
      Forall (fun row => RefreshTokenORM.id row <= refresh_tokens_id_seq db)
        (refresh_tokens db) }.

(** Bob registers after Alice has logged in. *)
Definition bob_registered : outcome UserPublic * database :=
  run (auth_endpoints.register default_settings "bob" "bob-secret" 2) login_db.
(** * Properties *)

(** ** Integer printing and parsing *)

Lemma py_int_str (n : Z) : py_int (py_str n) = Some n.
Proof.
  unfold py_int, py_str. rewrite NilEmpty.isi.
  destruct n as [|p|p]; simpl.
  - reflexivity.
  - pose proof (DecimalPos.Unsigned.to_uint_nonnil p) as Hnil.
    pose proof (DecimalZ.of_to (Z.pos p)) as Hback. simpl in Hback.
    destruct (Pos.to_uint p); [congruence | by rewrite <- Hback ..].
  - pose proof (DecimalPos.Unsigned.to_uint_nonnil p) as Hnil.
    pose proof (DecimalZ.of_to (Z.neg p)) as Hback. simpl in Hback.
    destruct (Pos.to_uint p); [congruence | by rewrite <- Hback ..].
Qed.

Lemma py_str_inj (m n : Z) : py_str m = py_str n -> m = n.
Proof.
  intros Heq. apply (f_equal py_int) in Heq.
  rewrite !py_int_str in Heq. congruence.
Qed.

Module RedisFacts.
Import Redis.

Lemma int_of_val_str (n : Z) :
  INT64_MIN <= n <= INT64_MAX -> int_of_val (py_str n) = Some n.
Proof.
  intros [Hlo Hhi]. unfold int_of_val. rewrite py_int_str.
  rewrite bool_decide_eq_true_2 by reflexivity.
  apply Z.leb_le in Hlo, Hhi. by rewrite Hlo, Hhi.
Qed.

Lemma int_of_val_range (s : string) (n : Z) :
  int_of_val s = Some n -> INT64_MIN <= n <= INT64_MAX /\ s = py_str n.
Proof.
  unfold int_of_val. destruct (py_int s) as [m|]; [|done].
  destruct (bool_decide (py_str m = s)) eqn:Hs; simpl; [|done].
  destruct (INT64_MIN <=? m) eqn:Hlo; simpl; [|done].
  destruct (m <=? INT64_MAX) eqn:Hhi; [|done].
  intros [= <-]. apply bool_decide_eq_true_1 in Hs.
  apply Z.leb_le in Hlo, Hhi. done.
Qed.

Lemma find_insert_eq key now e (r : store) :
  find key now (<[key := e]> r) = if expired now e then None else Some e.
Proof. unfold find. by rewrite lookup_insert_eq. Qed.

Lemma find_insert_ne key key' now e (r : store) :
  key <> key' -> find key' now (<[key := e]> r) = find key' now r.
Proof. intros Hne. unfold find. by rewrite lookup_insert_ne. Qed.

Lemma find_delete_eq key now (r : store) : find key now (delete key r) = None.
Proof. unfold find. by rewrite lookup_delete_eq. Qed.

Lemma find_delete_ne key key' now (r : store) :
  key <> key' -> find key' now (delete key r) = find key' now r.
Proof. intros Hne. unfold find. by rewrite lookup_delete_ne. Qed.

(** What one EVAL of the script does, case by case on what the key holds
    when the script is served. *)
Lemma incr_expire_script_eq key w now (r : store) :
  0 < w ->
  incr_expire_script key (py_str w) now r =
    match find key now r with
    | None =>
        (Return 1, <[key := Entry (py_str 1) (Some (now + w * 1000))]> r)
    | Some e =>
        match int_of_val (val e) with
        | None =>
            (Raise (ResponseError "ERR value is not an integer or out of range"), r)
        | Some n =>
            if n <? INT64_MAX then
              (Return (n + 1),
               <[key := Entry (py_str (n + 1))
                          (if n + 1 =? 1 then Some (now + w * 1000)
                           else expire_at e)]> r)
            else
              (Raise (ResponseError "ERR increment or decrement would overflow"), r)
        end
    end.
Proof.
  intros Hw. unfold incr_expire_script, INCR.
  destruct (find key now r) as [e|] eqn:Hfind.
  - destruct (int_of_val (val e)) as [n|] eqn:Hval; [|done].
    destruct (n <? INT64_MAX) eqn:Hmax; [|done].
    destruct (n + 1 =? 1) eqn:Hone; [|done].
    unfold EXPIRE. rewrite py_int_str, find_insert_eq.
    unfold find in Hfind. destruct (r !! key) as [e'|]; [|done].
    destruct (expired now e') eqn:Hexp; [done|]. injection Hfind as ->.
    change (expired now (Entry (py_str (n + 1)) (expire_at e)))
      with (expired now e).
    rewrite Hexp. apply Z.leb_gt in Hw. rewrite Hw. simpl.
    by rewrite insert_insert_eq.
  - simpl. unfold EXPIRE. rewrite py_int_str, find_insert_eq. simpl.
    apply Z.leb_gt in Hw. rewrite Hw. simpl.
    by rewrite insert_insert_eq.
Qed.

End RedisFacts.

(** ** The atomic counter primitive *)



(** ** The rate limiter *)




Section limiter_window.
Import Redis RedisFacts.

Variable config : rate_limit.RateLimit.
Variable key_fn : option (rate_limit.Request -> string).
Variable request : rate_limit.Request.

Let ident : string :=
  match key_fn with
  | Some f => f request
  | None => rate_limit.client_ip request
  end.
Let key : string := rl_key config ident.

Hypothesis window_pos : 0 < rate_limit.window_seconds config.

Lemma limiter_eq t_incr t_ttl (r : store) current r1 :
  rate_limit._incr_with_ttl key (rate_limit.window_seconds config) t_incr r
    = (Return current, r1) ->
  rate_limit.limiter config key_fn request t_incr t_ttl r
    = (rate_verdict config current (TTL key t_ttl r1), r1).
Proof.
  intros Hincr. unfold rate_limit.limiter, rate_verdict.
  fold ident. change ("rl:" +:+ _ +:+ ":" +:+ ident) with key. rewrite Hincr.
  by destruct (rate_limit.limit config <? current).
Qed.

(** First request of a window: the key is absent (or has expired). *)
Lemma limiter_opens_window t_incr t_ttl (r : store) :
  find key t_incr r = None ->
  let r1 := <[key := Entry (py_str 1)
                       (Some (t_incr + rate_limit.window_seconds config * 1000))]> r in
  rate_limit.limiter config key_fn request t_incr t_ttl r
    = (rate_verdict config 1 (TTL key t_ttl r1), r1).
Proof.
  intros Hfind r1. apply limiter_eq.
  unfold rate_limit._incr_with_ttl.
  rewrite incr_expire_script_eq by done. by rewrite Hfind.
Qed.

(** A later request of the same window. *)
Lemma limiter_counts t_incr t_ttl (r : store) count when :
  r !! key = Some (Entry (py_str count) (Some when)) ->
  1 <= count < INT64_MAX ->
  t_incr <= when ->
  let r1 := <[key := Entry (py_str (count + 1)) (Some when)]> r in
  rate_limit.limiter config key_fn request t_incr t_ttl r
    = (rate_verdict config (count + 1) (TTL key t_ttl r1), r1).
Proof.
  intros Hkey [Hlo Hhi] Hlive r1. apply limiter_eq.
  unfold rate_limit._incr_with_ttl.
  rewrite incr_expire_script_eq by done.
  unfold find. rewrite Hkey. unfold expired. simpl.
  apply Z.ltb_ge in Hlive. rewrite Hlive. simpl.
  rewrite int_of_val_str by (unfold INT64_MIN, INT64_MAX in *; lia).
  apply Z.ltb_lt in Hhi. rewrite Hhi.
  assert ((count + 1 =? 1) = false) as -> by (apply Z.eqb_neq; lia).
  done.
Qed.

(** After [n] more requests inside the window the counter has grown by
    [n]; request number [i] of them sees the count [count + i]. *)
Lemma limiter_calls_in_window (times : list (Z * Z)) :
  forall (r : store) count when,
    r !! key = Some (Entry (py_str count) (Some when)) ->
    1 <= count -> count + Z.of_nat (length times) <= INT64_MAX ->
    Forall (fun t => t.1 <= when) times ->
    exists os r',
      limiter_calls config key_fn request times r = (os, r')
      /\ r' !! key
         = Some (Entry (py_str (count + Z.of_nat (length times))) (Some when))
      /\ length os = length times
      /\ forall i o, os !! i = Some o ->
           exists retry_after,
             o = rate_verdict config (count + Z.of_nat (S i)) retry_after.
Proof.
  induction times as [|[t_incr t_ttl] rest IH]; intros r count when Hkey Hlo Hhi Hwin.
  - exists [], r. simpl. rewrite Z.add_0_r. repeat split; [done|].
    intros i o Hi. by rewrite lookup_nil in Hi.
  - apply Forall_cons in Hwin as [Hnow Hwin]. simpl in Hnow, Hhi.
    simpl. rewrite (limiter_counts t_incr t_ttl r count when) by (done || lia).
    set (r1 := <[key := Entry (py_str (count + 1)) (Some when)]> r).
    destruct (IH r1 (count + 1) when) as (os & r' & Hrun & Hkey' & Hlen & Hos);
      [by subst r1; rewrite lookup_insert_eq | lia | lia | done |].
    rewrite Hrun. eexists _, r'. split; [reflexivity|].
    split; [rewrite Hkey'; do 3 f_equal; lia|].
    split; [simpl; by rewrite Hlen|].
    intros [|i] o Hi; simpl in Hi.
    + injection Hi as <-. eexists. f_equal.
    + destruct (Hos i o Hi) as [ra ->]. exists ra. f_equal. lia.
Qed.

End limiter_window.

(** C3.  [limiter] builds the key [rl:<prefix>:<identity>], increments it
    with [_incr_with_ttl] and compares the returned count with [limit]: a
    count of at most [limit] lets the request through, a larger count
    raises HTTP 429 whose [Retry-After] is the key's TTL, floored at 1.
    In particular, with [limit = 5] and [window_seconds = 10], of six calls
    that fall into one window the first five pass and the sixth is rejected
    with a [Retry-After] of at least one second. *)
Theorem limiter_fixed_window
    (config : rate_limit.RateLimit)
    (key_fn : option (rate_limit.Request -> string))
    (request : rate_limit.Request) :
  let ident := match key_fn with
               | Some f => f request
               | None => rate_limit.client_ip request
               end in
  let key := "rl:" +:+ rate_limit.key_prefix config +:+ ":" +:+ ident in
  (forall t_incr t_ttl r current r1,
      rate_limit._incr_with_ttl key (rate_limit.window_seconds config) t_incr r
        = (Return current, r1) ->
      (current <= rate_limit.limit config ->
       rate_limit.limiter config key_fn request t_incr t_ttl r = (Return tt, r1))
      /\ (rate_limit.limit config < current ->
          exists detail,
            rate_limit.limiter config key_fn request t_incr t_ttl r
              = (Raise (HTTPException 429 detail
                          [("Retry-After",
                            py_str (Z.max (Redis.TTL key t_ttl r1) 1))]), r1)))
  /\ (rate_limit.limit config = 5 ->
      rate_limit.window_seconds config = 10 ->
      forall t1 t1' rest r,
        Redis.find key t1 r = None ->
        length rest = 5%nat ->
        Forall (fun t => fst t <= t1 + 10 * 1000) rest ->
        exists retry_after r',
          limiter_calls config key_fn request ((t1, t1') :: rest) r
            = ([Return tt; Return tt; Return tt; Return tt; Return tt;
                Raise (HTTPException 429 "Rate limit exceeded: 5/10s"
                         [("Retry-After", py_str retry_after)])], r')
          /\ 1 <= retry_after).
Proof.
  intros ident key. split.
  - intros t_incr t_ttl r current r1 Hincr.
    unfold rate_limit.limiter. fold ident. fold key. rewrite Hincr.
    split; intros Hcmp.
    + apply Z.ltb_ge in Hcmp. by rewrite Hcmp.
    + apply Z.ltb_lt in Hcmp. rewrite Hcmp. by eexists.
  - intros Hlimit Hwindow t1 t1' rest r Hfresh Hlen Hwin.
    assert (0 < rate_limit.window_seconds config) as Hpos by lia.
    cbn [limiter_calls].
    rewrite (limiter_opens_window config key_fn request Hpos t1 t1' r Hfresh).
    set (r1 := <[_ := _]> r).
    destruct (limiter_calls_in_window config key_fn request Hpos rest r1 1
                (t1 + 10 * 1000)) as (os & r' & Hrun & _ & Hos_len & Hos).
    { subst r1. rewrite lookup_insert_eq. by rewrite Hwindow. }
    { lia. }
    { rewrite Hlen. unfold Redis.INT64_MAX. lia. }
    { done. }
    rewrite Hrun. rewrite Hlen in Hos_len.
    destruct os as [|o2 [|o3 [|o4 [|o5 [|o6 [|? ?]]]]]]; try discriminate Hos_len.
    destruct (Hos 0%nat o2 eq_refl) as [ra2 ->].
    destruct (Hos 1%nat o3 eq_refl) as [ra3 ->].
    destruct (Hos 2%nat o4 eq_refl) as [ra4 ->].
    destruct (Hos 3%nat o5 eq_refl) as [ra5 ->].
    destruct (Hos 4%nat o6 eq_refl) as [ra6 ->].
    exists (Z.max ra6 1), r'. split; [|lia].
    unfold rate_verdict. rewrite Hlimit, Hwindow. reflexivity.
Qed.

Lemma limiter_fixed_window_witness :
  exists retry_after r',
    limiter_calls rl_demo.demo_limit None
      (rate_limit.Build_Request (Some "127.0.0.1"))
      [(0, 0); (100, 101); (2000, 2001); (4000, 4001); (9000, 9001);
       (9600, 9601)] ∅
    = ([Return tt; Return tt; Return tt; Return tt; Return tt;
        Raise (HTTPException 429 "Rate limit exceeded: 5/10s"
                 [("Retry-After", py_str retry_after)])], r')
    /\ 1 <= retry_after.
Proof.
  apply (limiter_fixed_window rl_demo.demo_limit None
           (rate_limit.Build_Request (Some "127.0.0.1")));
    [reflexivity | reflexivity | reflexivity | reflexivity |].
  repeat (constructor; [simpl; lia|]). constructor.
Defined.

(** ** The brute-force guard *)


Section brute_force_guard.
Import Redis RedisFacts.

Variable cfg : bruteforce.BruteForceConfig.
Variables username ip : string.

Let fk : string := bruteforce._fail_key cfg username ip.
Let lk : string := bruteforce._lock_key cfg username ip.

Lemma fail_key_not_lock_key : fk <> lk.
Proof.
  unfold fk, lk, bruteforce._fail_key, bruteforce._lock_key. intros Heq.
  apply (inj (String.append "bf:")) in Heq.
  apply (inj (String.append (bruteforce.key_prefix cfg))) in Heq.
  discriminate Heq.
Qed.



Hypothesis lock_pos : 0 < bruteforce.lock_seconds cfg.

Lemma register_failure_eq t_incr t_set (r : store) current r1 :
  bruteforce._incr_with_ttl fk (bruteforce.window_seconds cfg) t_incr r
    = (Return current, r1) ->
  bruteforce.register_failure cfg username ip t_incr t_set r
    = (Return current, with_lock cfg username ip current t_set r1).
Proof.
  intros Hincr. unfold bruteforce.register_failure, with_lock.
  fold fk. fold lk. rewrite Hincr.
  destruct (bruteforce.max_failures cfg <=? current); [|done].
  unfold SET_EX. apply Z.leb_gt in lock_pos. by rewrite lock_pos.
Qed.

Hypothesis window_pos : 0 < bruteforce.window_seconds cfg.

Lemma register_failure_first t_incr t_set (r : store) :
  find fk t_incr r = None ->
  bruteforce.register_failure cfg username ip t_incr t_set r
    = (Return 1,
       with_lock cfg username ip 1 t_set
         (<[fk := Entry (py_str 1)
                    (Some (t_incr + bruteforce.window_seconds cfg * 1000))]> r)).
Proof.
  intros Hfind. apply register_failure_eq.
  unfold bruteforce._incr_with_ttl.
  rewrite incr_expire_script_eq by done. by rewrite Hfind.
Qed.

Lemma register_failure_next t_incr t_set (r : store) count when :
  r !! fk = Some (Entry (py_str count) (Some when)) ->
  1 <= count < INT64_MAX ->
  t_incr <= when ->
  bruteforce.register_failure cfg username ip t_incr t_set r
    = (Return (count + 1),
       with_lock cfg username ip (count + 1) t_set
         (<[fk := Entry (py_str (count + 1)) (Some when)]> r)).
Proof.
  intros Hkey [Hlo Hhi] Hlive. apply register_failure_eq.
  unfold bruteforce._incr_with_ttl.
  rewrite incr_expire_script_eq by done.
  unfold find. rewrite Hkey. unfold expired. simpl.
  apply Z.ltb_ge in Hlive. rewrite Hlive. simpl.
  rewrite int_of_val_str by (unfold INT64_MIN, INT64_MAX in *; lia).
  apply Z.ltb_lt in Hhi. rewrite Hhi.
  assert ((count + 1 =? 1) = false) as -> by (apply Z.eqb_neq; lia).
  done.
Qed.



End brute_force_guard.




(** C9.  From any state of the store, [clear_state] removes both the
    failure key and the lock key of the (username, ip) and nothing else,
    and an [ensure_not_locked] for the same (username, ip) on the
    resulting store returns normally, whatever the clock shows and whether
    or not the pair was locked before. *)
Theorem clear_state_unlocks
    (cfg : bruteforce.BruteForceConfig) (username ip : string)
    (t_del t_exists t_ttl : Z) (r : Redis.store) :
  let fk := bruteforce._fail_key cfg username ip in
  let lk := bruteforce._lock_key cfg username ip in
  exists r1,
    bruteforce.clear_state cfg username ip t_del r = (Return tt, r1)
    /\ r1 !! fk = None /\ r1 !! lk = None
    /\ (forall k, k <> fk -> k <> lk -> r1 !! k = r !! k)
    /\ bruteforce.ensure_not_locked cfg username ip t_exists t_ttl r1
       = (Return tt, r1).
Proof.
  intros fk lk. exists (delete lk (delete fk r)). split; [|split; [|split; [|split]]].
  - unfold bruteforce.clear_state. fold fk. fold lk. reflexivity.
  - rewrite lookup_delete_ne by (intros Heq; by apply (fail_key_not_lock_key cfg username ip)).
    apply lookup_delete_eq.
  - apply lookup_delete_eq.
  - intros k Hfk Hlk. by rewrite !lookup_delete_ne.
  - unfold bruteforce.ensure_not_locked. fold lk.
    unfold Redis.EXISTS, Redis.find. by rewrite lookup_delete_eq.
Qed.

(** Failures that do not fall into one window are not added up: with the
    demo configuration, five failures 121 seconds apart each open a new
    window and leave the pair unlocked. *)
Example failures_across_windows :
  fst (register_failures bf_demo.CFG "alice" "127.0.0.1"
         [(0, 0); (121000, 121000); (242000, 242000); (363000, 363000);
          (484000, 484000)] ∅)
    = [Return 1; Return 1; Return 1; Return 1; Return 1]
  /\ fst (bruteforce.ensure_not_locked bf_demo.CFG "alice" "127.0.0.1"
            484001 484001
            (snd (register_failures bf_demo.CFG "alice" "127.0.0.1"
                    [(0, 0); (121000, 121000); (242000, 242000);
                     (363000, 363000); (484000, 484000)] ∅)))
     = Return tt.
Proof. split; vm_compute; reflexivity. Qed.

(** The guard at work on the demo configuration: five failures lock the
    pair, a successful login clears the lock. *)
Example clear_state_after_lockout :
  let locked :=
    snd (register_failures bf_demo.CFG "alice" "127.0.0.1"
           [(0, 0); (10, 10); (20, 20); (30, 30); (40, 40)] ∅) in
  fst (bruteforce.ensure_not_locked bf_demo.CFG "alice" "127.0.0.1" 50 50 locked)
    = Raise (HTTPException 429 "Too many login attempts. Try again later."
               [("Retry-After", "60")])
  /\ fst (bruteforce.ensure_not_locked bf_demo.CFG "alice" "127.0.0.1" 70 70
            (snd (bruteforce.clear_state bf_demo.CFG "alice" "127.0.0.1" 60 locked)))
     = Return tt.
Proof. split; vm_compute; reflexivity. Qed.

(** ** Tokens *)

Section tokens.
Variable env : Settings.

Lemma quot_ge_div (a b : Z) : 0 < b -> a / b <= a ÷ b.
Proof.
  intros Hb. destruct (Z.le_gt_cases 0 a) as [Ha|Ha].
  - rewrite Z.quot_div_nonneg by lia. lia.
  - pose proof (Z.quot_rem' a b) as Hquot.
    pose proof (Z.rem_nonpos a b ltac:(lia) ltac:(lia)) as Hrem.
    pose proof (Z.mul_div_le a b Hb) as Hdiv.
    nia.
Qed.


Lemma access_payload_lookup user_id role now jti :
  let token := security.create_access_token env user_id role now jti in
  exists payload,
    token = jwt.encode payload (JWT_SECRET env) security.JWT_ALG
    /\ payload !! "type" = Some (JStr "access")
    /\ payload !! "sub" = Some (JStr (py_str user_id))
    /\ payload !! "role" = Some (JStr role)
    /\ payload !! "iat" = Some (JInt (security.int_timestamp now))
    /\ payload !! "exp"
       = Some (JInt (security.int_timestamp
                       (now + security.timedelta_minutes (ACCESS_MIN env))))
    /\ payload !! "jti" = Some (JStr jti).
Proof.
  eexists. split; [reflexivity|]. repeat split; by simplify_map_eq.
Qed.

Lemma refresh_payload_lookup user_id now jti :
  let token := fst (security.create_refresh_token env user_id now jti) in
  exists payload,
    token = jwt.encode payload (JWT_SECRET env) security.JWT_ALG
    /\ payload !! "type" = Some (JStr "refresh")
    /\ payload !! "sub" = Some (JStr (py_str user_id))
    /\ payload !! "iat" = Some (JInt (security.int_timestamp now))
    /\ payload !! "exp"
       = Some (JInt (security.int_timestamp
                       (now + security.timedelta_days (REFRESH_DAYS env))))
    /\ payload !! "jti" = Some (JStr jti).
Proof.
  eexists. split; [reflexivity|]. repeat split; by simplify_map_eq.
Qed.

(** Decoding a token signed with the application's key comes down to the
    claim checks. *)
Lemma decode_encoded payload now :
  security.decode_token env
    (jwt.encode payload (JWT_SECRET env) security.JWT_ALG) now
  = jwt.validate_claims payload now.
Proof.
  unfold security.decode_token, jwt.encode, jwt.decode.
  rewrite !bool_decide_eq_true_2; [done.. | ].
  apply list_elem_of_singleton. reflexivity.
Qed.

Lemma validate_issued payload now iat exp sub jti :
  payload !! "iat" = Some (JInt iat) ->
  payload !! "exp" = Some (JInt exp) ->
  payload !! "sub" = Some (JStr sub) ->
  payload !! "jti" = Some (JStr jti) ->
  jwt.validate_claims payload now
  = if exp <? jwt.unix_seconds now then Raise ExpiredSignatureError
    else Return payload.
Proof.
  intros Hiat Hexp Hsub Hjti. unfold jwt.validate_claims.
  by rewrite Hiat, Hexp, Hsub, Hjti.
Qed.

End tokens.



(** The verifier reads its clock in whole seconds and accepts a token
    through the whole of second [exp]: a verification a fraction of a
    second after the lifetime has elapsed still succeeds. *)
Example access_token_within_last_second :
  exists claims,
    security.decode_token default_settings
      (security.create_access_token default_settings 1 "user"
         1700000000500000 "5f0c")
      1700000900700000 = Return claims.
Proof. eexists. vm_compute. reflexivity. Qed.

(** ** Login *)

Lemma filter_nil_Forall {A : Type} (p : A -> bool) (l : list A) :
  Forall (fun x => p x = false) l -> List.filter p l = [].
Proof.
  induction 1 as [|x l Hx _ IH]; simpl; [done|]. by rewrite Hx.
Qed.

(** C8.  A login with a username that no user row carries and a login with
    an existing username but a password the hash does not verify end the
    same way: both raise HTTP 401 with the detail "Invalid credentials",
    no headers, and leave the tables as they were, so the two responses
    cannot be told apart. *)
Theorem login_failures_indistinguishable
    (env : Settings) (db : database)
    (unknown password1 : string) (amb1 : auth.ambient)
    (known password2 : string) (amb2 : auth.ambient) (u : UserORM.t) :
  Forall (fun row => UserORM.username row <> unknown) (users db) ->
  List.filter (fun row => bool_decide (UserORM.username row = known)) (users db)
    = [u] ->
  security.verify_password env password2 (UserORM.password_hash u) = false ->
  run (auth.login env unknown password1 amb1) db
    = (Raise (HTTPException 401 "Invalid credentials" []), db)
  /\ run (auth.login env known password2 amb2) db
     = run (auth.login env unknown password1 amb1) db.
Proof.
  intros Hunknown Hknown Hwrong.
  assert (run (auth.login env unknown password1 amb1) db
          = (Raise (HTTPException 401 "Invalid credentials" []), db)) as Hrun1.
  { unfold auth.login. cbn [run session.select_user_by_username].
    rewrite filter_nil_Forall; [reflexivity|].
    eapply Forall_impl; [exact Hunknown|].
    intros row Hrow. by apply bool_decide_eq_false_2. }
  split; [exact Hrun1|]. rewrite Hrun1.
  unfold auth.login. cbn [run session.select_user_by_username].
  rewrite Hknown. cbn [scalar_one_or_none]. by rewrite Hwrong.
Qed.


Lemma login_failures_indistinguishable_witness :
  run (auth.login default_settings "mallory" "guess" first_draw) alice_db
    = (Raise (HTTPException 401 "Invalid credentials" []), alice_db)
  /\ run (auth.login default_settings "alice" "guess" first_draw) alice_db
     = run (auth.login default_settings "mallory" "guess" first_draw) alice_db.
Proof.
  apply (login_failures_indistinguishable default_settings alice_db
           "mallory" "guess" _ "alice" "guess" _ alice).
  - repeat constructor. discriminate.
  - reflexivity.
  - reflexivity.
Defined.

(** ** Running and interleaving handlers *)


Lemma step_keeps {A : Type} (Inv : database -> Prop) (t : coroutine A) db :
  keeps Inv t -> Inv db ->
  keeps Inv (fst (step t db)) /\ Inv (snd (step t db)).
Proof.
  intros Hkeeps Hinv. destruct Hkeeps as [o|R stmt k Hstmt Hk]; simpl.
  - split; [constructor | done].
  - specialize (Hstmt db Hinv).
    destruct (stmt db) as [[x|e] db']; simpl in *; split; try done. constructor.
Qed.

Lemma run_keeps {A : Type} (Inv : database -> Prop) (t : coroutine A) :
  keeps Inv t -> forall db, Inv db -> Inv (snd (run t db)).
Proof.
  induction 1 as [o|R stmt k Hstmt _ IH]; intros db Hinv; simpl; [done|].
  specialize (Hstmt db Hinv).
  destruct (stmt db) as [[x|e] db']; simpl in *; [by apply IH | done].
Qed.


(** ** Refresh-token rotation *)

Section rotation.
Variable env : Settings.

Lemma refresh_token_start token amb jti user_id :
  presents env token (auth.t_verify amb) jti user_id ->
  auth.refresh_token env token amb
  = Await (session.select_refresh_token_by_jti jti) (after_lookup env user_id amb).
Proof.
  intros (claims & Hdec & Htype & Hjti & Hsub). unfold auth.refresh_token.
  rewrite Hdec, bool_decide_eq_true_2 by done. simpl.
  rewrite Hsub, Hjti. reflexivity.
Qed.

Lemma refresh_token_undecodable token amb e :
  security.decode_token env token (auth.t_verify amb) = Raise e ->
  auth.refresh_token env token amb
  = auth.unauthorized "Invalid or expired refresh token".
Proof. intros Hdec. unfold auth.refresh_token. by rewrite Hdec. Qed.



Lemma filter_map_same {A : Type} (p : A -> bool) (f : A -> A) (l : list A) :
  (forall x, p (f x) = p x) ->
  List.filter p (map f l) = map f (List.filter p l).
Proof.
  intros Hp. induction l as [|x l IH]; simpl; [done|].
  rewrite Hp. destruct (p x); simpl; by rewrite IH.
Qed.

Lemma rows_with_jti_revoke_row jti rt db :
  rows_with_jti jti (revoke_row rt db)
  = map (fun row => if RefreshTokenORM.id row =? RefreshTokenORM.id rt
                    then RefreshTokenORM.set_revoked true row else row)
        (rows_with_jti jti db).
Proof.
  unfold rows_with_jti, revoke_row. simpl. apply filter_map_same.
  intros row. by destruct (_ =? _).
Qed.

Lemma rows_with_jti_revoked jti rt db :
  rows_with_jti jti db = [rt] ->
  rows_with_jti jti (revoke_row rt db) = [RefreshTokenORM.set_revoked true rt].
Proof.
  intros Hrows. rewrite rows_with_jti_revoke_row, Hrows. simpl.
  by rewrite Z.eqb_refl.
Qed.

Lemma rows_with_jti_elem jti rt db :
  In rt (rows_with_jti jti db) ->
  In rt (refresh_tokens db) /\ jti = Some (JStr (RefreshTokenORM.jti rt)).
Proof.
  unfold rows_with_jti. rewrite List.filter_In. intros [Hin Hjti].
  split; [done|]. by apply bool_decide_eq_true_1 in Hjti.
Qed.

(** An INSERT never touches the rows of a [jti] that is already there. *)
Lemma commit_add_keeps_rows jti row new_jti user_id expires_at revoked db :
  rows_with_jti (Some (JStr jti)) db = [row] ->
  rows_with_jti (Some (JStr jti))
    (snd (session.commit_add_refresh_token new_jti user_id expires_at revoked db))
  = [row].
Proof.
  intros Hrows. unfold session.commit_add_refresh_token.
  destruct (existsb _ (refresh_tokens db) || _) eqn:Hcheck; simpl; [done|].
  unfold rows_with_jti in *. simpl. rewrite List.filter_app, Hrows. simpl.
  rewrite bool_decide_eq_false_2; [done|].
  intros [= ->].
  apply orb_false_iff in Hcheck as [Hfresh _].
  assert (In row (rows_with_jti (Some (JStr new_jti)) db)) as Hin
      by (unfold rows_with_jti; rewrite Hrows; by left).
  apply rows_with_jti_elem in Hin as [Hin [= Hjti]].
  assert (existsb
            (fun r => (RefreshTokenORM.id r =? refresh_tokens_id_seq db + 1)
                      || bool_decide (RefreshTokenORM.jti r = new_jti))
            (refresh_tokens db) = true) as Hex; [|congruence].
  apply existsb_exists. exists row. split; [done|].
  rewrite (bool_decide_eq_true_2 _ (eq_sym Hjti)). apply orb_true_r.
Qed.

Lemma issue_pair_keeps jti row user amb :
  keeps (fun db => rows_with_jti (Some (JStr jti)) db = [row])
    (issue_pair env user amb).
Proof.
  unfold issue_pair.
  destruct (security.create_refresh_token env _ _ _) as [refresh refresh_exp].
  destruct (security.decode_token env refresh _) as [refresh_claims|e];
    [|constructor].
  destruct (refresh_claims !! "jti") as [[new_jti|n]|]; try constructor.
  - intros db Hrows. by apply commit_add_keeps_rows.
  - intros _. constructor.
Qed.

Lemma after_revoke_keeps jti row user_id amb :
  keeps (fun db => rows_with_jti (Some (JStr jti)) db = [row])
    (after_revoke env user_id amb).
Proof.
  unfold after_revoke. constructor; [done|].
  intros ures. destruct (scalar_one_or_none ures) as [[user|]|e];
    try constructor.
  apply issue_pair_keeps.
Qed.


(** The first two statements of a request that finds the presented [jti]
    unrevoked: the lookup, then the UPDATE. *)
Lemma run_lookup_live token amb jti user_id rt db :
  presents env token (auth.t_verify amb) jti user_id ->
  rows_with_jti jti db = [rt] ->
  RefreshTokenORM.revoked rt = false ->
  step (auth.refresh_token env token amb) db
    = (after_lookup env user_id amb [rt], db)
  /\ step (after_lookup env user_id amb [rt]) db
     = (after_revoke env user_id amb, revoke_row rt db)
  /\ run (auth.refresh_token env token amb) db
     = run (after_revoke env user_id amb) (revoke_row rt db).
Proof.
  intros Hpresents Hrows Hlive.
  rewrite (refresh_token_start _ _ _ _ Hpresents).
  unfold rows_with_jti in Hrows. simpl. rewrite Hrows.
  unfold after_lookup. simpl. rewrite Hlive. simpl. done.
Qed.

(** A rotation that returns found exactly one unrevoked row for the
    presented [jti] and has revoked it. *)
Lemma refresh_token_returns token amb db pair db1 :
  run (auth.refresh_token env token amb) db = (Return pair, db1) ->
  exists jti user_id rt,
    presents env token (auth.t_verify amb) (Some (JStr jti)) user_id
    /\ rows_with_jti (Some (JStr jti)) db = [rt]
    /\ RefreshTokenORM.revoked rt = false
    /\ run (after_revoke env user_id amb) (revoke_row rt db) = (Return pair, db1)
    /\ rows_with_jti (Some (JStr jti)) db1 = [RefreshTokenORM.set_revoked true rt].
Proof.
  intros Hrun.
  destruct (security.decode_token env token (auth.t_verify amb))
    as [claims|e] eqn:Hdec;
    [|by rewrite (refresh_token_undecodable _ _ _ Hdec) in Hrun].
  destruct (bool_decide (claims !! "type" = Some (JStr "refresh"))) eqn:Htype;
    [|by unfold auth.refresh_token in Hrun; rewrite Hdec, Htype in Hrun].
  apply bool_decide_eq_true_1 in Htype.
  destruct (auth.int_of_claim (claims !! "sub")) as [user_id|e] eqn:Hsub;
    [|by unfold auth.refresh_token in Hrun;
         rewrite Hdec, bool_decide_eq_true_2, Hsub in Hrun].
  assert (presents env token (auth.t_verify amb) (claims !! "jti") user_id)
    as Hpresents by (by exists claims).
  rewrite (refresh_token_start _ _ _ _ Hpresents) in Hrun.
  cbn [run session.select_refresh_token_by_jti] in Hrun.
  fold (rows_with_jti (claims !! "jti") db) in Hrun.
  destruct (rows_with_jti (claims !! "jti") db) as [|rt [|rt' rows]] eqn:Hrows;
    try discriminate Hrun.
  unfold after_lookup in Hrun. cbn [scalar_one_or_none] in Hrun.
  destruct (RefreshTokenORM.revoked rt) eqn:Hlive; [discriminate Hrun|].
  change (run (after_revoke env user_id amb) (revoke_row rt db)
          = (Return pair, db1)) in Hrun.
  assert (In rt (rows_with_jti (claims !! "jti") db)) as Hin
      by (rewrite Hrows; by left).
  apply rows_with_jti_elem in Hin as [_ Hjti].
  rewrite Hjti in Hpresents, Hrows.
  exists (RefreshTokenORM.jti rt), user_id, rt. repeat split; try done.
  pose proof (run_keeps _ _
                (after_revoke_keeps (RefreshTokenORM.jti rt)
                   (RefreshTokenORM.set_revoked true rt) user_id amb)
                (revoke_row rt db) (rows_with_jti_revoked _ _ _ Hrows)) as Hkept.
  by rewrite Hrun in Hkept.
Qed.


End rotation.

Example login_stores_row :
  fst (run (auth.login default_settings "alice" "alice12345" first_draw) alice_db)
    = Return (Build_TokenPair
                (security.create_access_token default_settings 1 "user"
                   1700000000000100 "a-0001")
                alice_token "bearer")
  /\ login_db = Build_database [alice] [alice_row] 1.
Proof. split; vm_compute; reflexivity. Qed.




(** Once the refresh lifetime is over, a replay is turned away by
    [decode_token] before the row is looked at. *)
Example replay_after_expiry :
  run (auth.refresh_token default_settings alice_token late_draw) (snd rotated)
  = (Raise (HTTPException 401 "Invalid or expired refresh token" []),
     snd rotated).
Proof. vm_compute. reflexivity. Qed.



(** ** Two rotations of one token *)

Section two_rotations.
Variable env : Settings.

(** Minting the pair does not look at the tables; only the INSERT does. *)
Lemma issue_pair_eq user amb :
  let access :=
    security.create_access_token env (UserORM.id user) (UserORM.role user)
      (auth.t_access amb) (auth.jti_access amb) in
  let refresh :=
    security.create_refresh_token env (UserORM.id user)
      (auth.t_refresh amb) (auth.jti_refresh amb) in
  issue_pair env user amb
  = match security.decode_token env (fst refresh) (auth.t_verify_new amb) with
    | Raise e => Done (Raise e)
    | Return _ =>
        Await (session.commit_add_refresh_token (auth.jti_refresh amb)
                 (UserORM.id user) (snd refresh) false)
          (fun _ => Done (Return (Build_TokenPair access (fst refresh) "bearer")))
    end.
Proof.
  intros access refresh. unfold issue_pair.
  destruct (refresh_payload_lookup env (UserORM.id user) (auth.t_refresh amb)
              (auth.jti_refresh amb))
    as (payload & Htoken & Htype & Hsub & Hiat & Hexp & Hjti).
  fold refresh in Htoken. fold access.
  change (security.create_refresh_token env (UserORM.id user)
            (auth.t_refresh amb) (auth.jti_refresh amb)) with refresh.
  destruct refresh as [token refresh_exp] eqn:Hrefresh. simpl in *.
  rewrite Htoken, decode_encoded.
  rewrite (validate_issued payload _ _ _ _ _ Hiat Hexp Hsub Hjti).
  destruct (_ <? _); [done|]. by rewrite Hjti.
Qed.


Lemma commit_add_returns jti user_id expires_at revoked db db1 :
  session.commit_add_refresh_token jti user_id expires_at revoked db
    = (Return tt, db1) ->
  no_conflict jti db
  /\ existsb (fun u => UserORM.id u =? user_id) (users db) = true
  /\ db1 = Build_database (users db)
             (refresh_tokens db
                ++ [RefreshTokenORM.Build_t (refresh_tokens_id_seq db + 1) jti
                      user_id expires_at revoked])
             (refresh_tokens_id_seq db + 1).
Proof.
  unfold session.commit_add_refresh_token.
  destruct (existsb _ (refresh_tokens db)) eqn:Hrows; [done|].
  destruct (existsb _ (users db)) eqn:Husers; [|done]. simpl.
  intros [= <-]. repeat split; try done.
  apply Forall_forall. intros r Hin.
  assert (((RefreshTokenORM.id r =? refresh_tokens_id_seq db + 1)
           || bool_decide (RefreshTokenORM.jti r = jti)) = false) as Hr.
  { destruct (_ || _) eqn:Hc; [|done].
    assert (existsb
              (fun r => (RefreshTokenORM.id r =? refresh_tokens_id_seq db + 1)
                        || bool_decide (RefreshTokenORM.jti r = jti))
              (refresh_tokens db) = true) as Hex; [|congruence].
    apply existsb_exists. exists r. split; [|done].
    by apply list_elem_of_In. }
  apply orb_false_iff in Hr as [Hid Hjti].
  split; [by apply Z.eqb_neq | by apply bool_decide_eq_false_1 in Hjti].
Qed.

Lemma commit_add_accepts jti user_id expires_at revoked db :
  no_conflict jti db ->
  existsb (fun u => UserORM.id u =? user_id) (users db) = true ->
  exists db1,
    session.commit_add_refresh_token jti user_id expires_at revoked db
    = (Return tt, db1).
Proof.
  intros Hfree Huser. unfold session.commit_add_refresh_token.
  rewrite Huser.
  assert (existsb
            (fun r => (RefreshTokenORM.id r =? refresh_tokens_id_seq db + 1)
                      || bool_decide (RefreshTokenORM.jti r = jti))
            (refresh_tokens db) = false) as ->; [|by eexists].
  apply not_true_is_false. intros Hex.
  apply existsb_exists in Hex as (r & Hin & Hr).
  apply list_elem_of_In in Hin.
  unfold no_conflict in Hfree. rewrite Forall_forall in Hfree.
  destruct (Hfree r Hin) as [Hid Hjti].
  apply orb_true_iff in Hr as [Hr|Hr];
    [by apply Z.eqb_eq in Hr | by apply bool_decide_eq_true_1 in Hr].
Qed.

Lemma no_conflict_revoke_row jti rt db :
  no_conflict jti (revoke_row rt db) <-> no_conflict jti db.
Proof.
  unfold no_conflict, revoke_row. simpl. rewrite Forall_fmap.
  apply Forall_iff. intros r. simpl. by destruct (_ =? _).
Qed.


End two_rotations.

Section concurrent_rotation.
Variable env : Settings.



End concurrent_rotation.



(** ** Logout *)

(** C7, as the code has it.  The router has no endpoint for
    [/auth/logout]: a request to that path, whatever its method, is
    answered 404 without a handler being run, so no row is revoked by
    it. *)
Theorem logout_is_not_routed
    {A : Type} (method : string) (handlers : auth.endpoint -> A)
    (not_routed : exn -> A) :
  auth.route method "/auth/logout" = None
  /\ auth.dispatch method "/auth/logout" handlers not_routed
     = not_routed (HTTPException 404 "Not Found" []).
Proof.
  assert (auth.route method "/auth/logout" = None) as Hroute.
  { unfold auth.route, auth.router. cbn [List.find fst snd].
    repeat (rewrite bool_decide_eq_false_2 by (intros [= _ ?]; discriminate)).
    reflexivity. }
  split; [exact Hroute|]. unfold auth.dispatch. rewrite Hroute. reflexivity.
Qed.

(** The token Alice was given at login is still exchanged for a new pair
    afterwards: nothing but a rotation revokes it. *)
Example refresh_after_logout_request :
  exists pair, fst rotated = Return pair.
Proof. eexists. vm_compute. reflexivity. Qed.

(** * Properties of the further parts *)

(** ** The limiter over time *)

Section limiter_over_time.
Import Redis RedisFacts.

Variable config : rate_limit.RateLimit.
Variable key_fn : option (rate_limit.Request -> string).
Variable request : rate_limit.Request.
Hypothesis window_pos : 0 < rate_limit.window_seconds config.

Let key : string := rl_key config (identity_of key_fn request).





End limiter_over_time.





(** ** Identities do not share counters *)

Section script_locality.
Import Redis RedisFacts.

Lemma find_local key now (r1 r2 : store) :
  r1 !! key = r2 !! key -> find key now r1 = find key now r2.
Proof. intros Heq. unfold find. by rewrite Heq. Qed.

(** The script reads and writes the one key it is given. *)
Lemma incr_expire_script_local key argv now (r1 r2 : store) :
  r1 !! key = r2 !! key ->
  fst (incr_expire_script key argv now r1)
    = fst (incr_expire_script key argv now r2)
  /\ snd (incr_expire_script key argv now r1) !! key
     = snd (incr_expire_script key argv now r2) !! key.
Proof.
  intros Heq. unfold incr_expire_script, INCR, EXPIRE.
  rewrite (find_local key now r1 r2 Heq).
  destruct (find key now r2) as [e|].
  - destruct (int_of_val (val e)) as [n|]; [|done].
    destruct (n <? INT64_MAX); [|done].
    destruct (n + 1 =? 1); [|by simpl; rewrite !lookup_insert_eq].
    destruct (py_int argv) as [secs|]; [|by simpl; rewrite !lookup_insert_eq].
    rewrite !find_insert_eq. destruct (expired now _);
      [by simpl; rewrite !lookup_insert_eq|].
    destruct (secs <=? 0); simpl;
      by rewrite ?lookup_delete_eq, ?lookup_insert_eq.
  - destruct (1 =? 1); [|by simpl; rewrite !lookup_insert_eq].
    destruct (py_int argv) as [secs|]; [|by simpl; rewrite !lookup_insert_eq].
    rewrite !find_insert_eq. destruct (expired now _);
      [by simpl; rewrite !lookup_insert_eq|].
    destruct (secs <=? 0); simpl;
      by rewrite ?lookup_delete_eq, ?lookup_insert_eq.
Qed.

Lemma incr_expire_script_frame key argv now (r : store) other :
  other <> key ->
  snd (incr_expire_script key argv now r) !! other = r !! other.
Proof.
  intros Hne. unfold incr_expire_script, INCR, EXPIRE.
  destruct (find key now r) as [e|].
  - destruct (int_of_val (val e)) as [n|]; [|done].
    destruct (n <? INT64_MAX); [|done].
    destruct (n + 1 =? 1); [|by simpl; rewrite lookup_insert_ne].
    destruct (py_int argv) as [secs|]; [|by simpl; rewrite lookup_insert_ne].
    rewrite find_insert_eq. destruct (expired now _);
      [by simpl; rewrite lookup_insert_ne|].
    destruct (secs <=? 0); simpl;
      by rewrite ?lookup_delete_ne, ?lookup_insert_ne.
  - destruct (1 =? 1); [|by simpl; rewrite lookup_insert_ne].
    destruct (py_int argv) as [secs|]; [|by simpl; rewrite lookup_insert_ne].
    rewrite find_insert_eq. destruct (expired now _);
      [by simpl; rewrite lookup_insert_ne|].
    destruct (secs <=? 0); simpl;
      by rewrite ?lookup_delete_ne, ?lookup_insert_ne.
Qed.

End script_locality.

(** X3.  Requests counted under different identities of one limit do not
    influence each other: a call for one identity leaves the key of the
    other as it is, and the answer the other identity gets next is the
    one it would have got without that call. *)
Theorem limiter_identities_independent
    (config : rate_limit.RateLimit)
    (key_fn : option (rate_limit.Request -> string))
    (request other : rate_limit.Request) (t t' u u' : Z) (r : Redis.store) :
  identity_of key_fn other <> identity_of key_fn request ->
  let r1 := snd (rate_limit.limiter config key_fn other u u' r) in
  let key := rl_key config (identity_of key_fn request) in
  r1 !! key = r !! key
  /\ fst (rate_limit.limiter config key_fn request t t' r1)
     = fst (rate_limit.limiter config key_fn request t t' r).
Proof.
  intros Hident r1 key.
  assert (rl_key config (identity_of key_fn request)
          <> rl_key config (identity_of key_fn other)) as Hkeys.
  { unfold rl_key. intros Heq.
    apply (inj (String.append "rl:")) in Heq.
    apply (inj (String.append (rate_limit.key_prefix config))) in Heq.
    apply (inj (String.append ":")) in Heq. by symmetry in Heq. }
  assert (r1 !! key = r !! key) as Hframe.
  { subst r1. unfold rate_limit.limiter, rate_limit._incr_with_ttl.
    fold (identity_of key_fn other). fold (rl_key config (identity_of key_fn other)).
    pose proof (incr_expire_script_frame
                  (rl_key config (identity_of key_fn other))
                  (py_str (rate_limit.window_seconds config)) u r key Hkeys)
      as Hscript.
    destruct (Redis.incr_expire_script _ _ u r) as [[current|e] r2];
      [|done]. simpl in Hscript. by destruct (_ <? _). }
  split; [done|].
  unfold rate_limit.limiter, rate_limit._incr_with_ttl.
  fold (identity_of key_fn request). fold (rl_key config (identity_of key_fn request)).
  fold key.
  destruct (incr_expire_script_local key
              (py_str (rate_limit.window_seconds config)) t r1 r Hframe)
    as [Hfst Hsnd].
  destruct (Redis.incr_expire_script key _ t r1) as [[c1|e1] s1];
    destruct (Redis.incr_expire_script key _ t r) as [[c2|e2] s2];
    simpl in Hfst, Hsnd |- *; try discriminate Hfst; [|by injection Hfst as ->].
  injection Hfst as <-.
  destruct (rate_limit.limit config <? c1); [|done]. simpl.
  unfold rate_limit._ttl_seconds, Redis.TTL.
  by rewrite (find_local key t' s1 s2 Hsnd).
Qed.

Lemma limiter_identities_independent_witness :
  fst (rate_limit.limiter rl_demo.demo_limit None
         (rate_limit.Build_Request (Some "10.0.0.1")) 5 6
         (snd (rate_limit.limiter rl_demo.demo_limit None
                 (rate_limit.Build_Request (Some "10.0.0.2")) 1 2 ∅)))
  = fst (rate_limit.limiter rl_demo.demo_limit None
           (rate_limit.Build_Request (Some "10.0.0.1")) 5 6 ∅).
Proof.
  apply (limiter_identities_independent rl_demo.demo_limit None
           (rate_limit.Build_Request (Some "10.0.0.1"))
           (rate_limit.Build_Request (Some "10.0.0.2")) 5 6 1 2 ∅).
  simpl. discriminate.
Defined.

(** ** The lock over time *)



(** ** The simulated login *)

Section simulated_login.
Variable normalize : string -> string.
Variable payload : bf_demo_login.LoginSimPayload.
Variable request : rate_limit.Request.

Let user : string := normalize (bf_demo_login.username payload).
Let ip : string := rate_limit.client_ip request.
Let fk : string := bruteforce._fail_key bf_demo.CFG user ip.
Let lk : string := bruteforce._lock_key bf_demo.CFG user ip.

Lemma login_sim_not_locked at_ (r : Redis.store) :
  Redis.find lk (bf_demo_login.at_exists at_) r = None ->
  bf_demo_login.login_sim normalize payload request at_ r
  = if bool_decide (bf_demo_login.password payload = "letmein")
    then (Return (bf_demo_login.Build_answer true
                    "Login successful (simulated)" None),
          delete lk (delete fk r))
    else match bruteforce.register_failure bf_demo.CFG user ip
                 (bf_demo_login.at_incr at_) (bf_demo_login.at_set at_) r with
         | (Raise e, r2) => (Raise e, r2)
         | (Return count, r2) =>
             (Return (bf_demo_login.Build_answer false "Invalid credentials"
                        (Some count)), r2)
         end.
Proof.
  intros Hfree. unfold bf_demo_login.login_sim, bruteforce.ensure_not_locked.
  fold user. fold ip. fold lk. unfold Redis.EXISTS. rewrite Hfree. simpl.
  by destruct (bool_decide _).
Qed.

End simulated_login.

(** X5.  While the pair is locked the simulated login answers 429 whatever
    the password, the right one included, and writes nothing: attempts
    made during the lock are not counted and do not prolong it. *)
Theorem login_sim_locked_refuses_all
    (normalize : string -> string) (payload : bf_demo_login.LoginSimPayload)
    (request : rate_limit.Request) (at_ : bf_demo_login.round_trips)
    (r : Redis.store) (e : Redis.entry) :
  let lk := bruteforce._lock_key bf_demo.CFG
              (normalize (bf_demo_login.username payload))
              (rate_limit.client_ip request) in
  r !! lk = Some e ->
  Redis.expired (bf_demo_login.at_exists at_) e = false ->
  bf_demo_login.login_sim normalize payload request at_ r
  = (Raise (HTTPException 429 "Too many login attempts. Try again later."
              [("Retry-After",
                py_str (Z.max (Redis.TTL lk (bf_demo_login.at_ttl at_) r) 1))]),
     r).
Proof.
  intros lk Hkey Hlive.
  unfold bf_demo_login.login_sim, bruteforce.ensure_not_locked.
  fold lk. unfold Redis.EXISTS, Redis.find. by rewrite Hkey, Hlive.
Qed.

Lemma login_sim_locked_refuses_all_witness :
  bf_demo_login.login_sim (fun s => s)
    (bf_demo_login.Build_LoginSimPayload "alice" "letmein")
    (rate_limit.Build_Request (Some "127.0.0.1"))
    (bf_demo_login.Build_round_trips 1000 1000 1000 1000 1000)
    {[ "bf:login-sim:lock:alice:127.0.0.1" := Redis.Entry "1" (Some 60000) ]}
  = (Raise (HTTPException 429 "Too many login attempts. Try again later."
              [("Retry-After", "59")]),
     {[ "bf:login-sim:lock:alice:127.0.0.1" := Redis.Entry "1" (Some 60000) ]}).
Proof.
  rewrite (login_sim_locked_refuses_all (fun s => s)
             (bf_demo_login.Build_LoginSimPayload "alice" "letmein")
             (rate_limit.Build_Request (Some "127.0.0.1"))
             (bf_demo_login.Build_round_trips 1000 1000 1000 1000 1000)
             {[ "bf:login-sim:lock:alice:127.0.0.1"
                := Redis.Entry "1" (Some 60000) ]}
             (Redis.Entry "1" (Some 60000)));
    reflexivity.
Defined.

(** X6.  The failure that reaches five within the window is itself
    answered like the others (ok false, count 5), but it installs the
    lock: every attempt for the same normalised username and address made
    within the next 60 seconds, with whatever password, is answered 429. *)
Theorem login_sim_fifth_failure_locks
    (normalize : string -> string)
    (payload next : bf_demo_login.LoginSimPayload)
    (request : rate_limit.Request) (at_ at_next : bf_demo_login.round_trips)
    (r : Redis.store) (when : Z) :
  let user := normalize (bf_demo_login.username payload) in
  let ip := rate_limit.client_ip request in
  r !! bruteforce._fail_key bf_demo.CFG user ip
    = Some (Redis.Entry (py_str 4) (Some when)) ->
  bf_demo_login.at_incr at_ <= when ->
  Redis.find (bruteforce._lock_key bf_demo.CFG user ip)
    (bf_demo_login.at_exists at_) r = None ->
  bf_demo_login.password payload <> "letmein" ->
  normalize (bf_demo_login.username next) = user ->
  bf_demo_login.at_exists at_next <= bf_demo_login.at_set at_ + 60 * 1000 ->
  exists locked seconds,
    bf_demo_login.login_sim normalize payload request at_ r
    = (Return (bf_demo_login.Build_answer false "Invalid credentials" (Some 5)),
       locked)
    /\ bf_demo_login.login_sim normalize next request at_next locked
       = (Raise (HTTPException 429 "Too many login attempts. Try again later."
                   [("Retry-After", py_str seconds)]), locked)
    /\ 1 <= seconds.
Proof.
  intros user ip Hcount Hlive Hfree Hwrong Hsame Hsoon.
  rewrite (login_sim_not_locked normalize payload request at_ r Hfree).
  rewrite bool_decide_eq_false_2 by done.
  fold user. fold ip.
  rewrite (register_failure_next bf_demo.CFG user ip) with (count := 4) (when := when);
    [|reflexivity|reflexivity|done|unfold Redis.INT64_MAX; lia|done].
  unfold with_lock. change (bruteforce.max_failures bf_demo.CFG <=? 4 + 1) with true.
  cbv iota. eexists _, _. split; [reflexivity|].
  split; [|apply Z.le_max_r].
  apply (login_sim_locked_refuses_all normalize next request at_next _
           (Redis.Entry "1" (Some (bf_demo_login.at_set at_ + 60 * 1000)))).
  - rewrite Hsame. fold user. fold ip. apply lookup_insert_eq.
  - unfold Redis.expired. simpl. by apply Z.ltb_ge.
Qed.

Lemma login_sim_fifth_failure_locks_witness :
  exists locked seconds,
    bf_demo_login.login_sim (fun s => s)
      (bf_demo_login.Build_LoginSimPayload "alice" "guess")
      (rate_limit.Build_Request (Some "127.0.0.1"))
      (bf_demo_login.Build_round_trips 1000 1000 1000 1001 1001)
      {[ "bf:login-sim:fail:alice:127.0.0.1" := Redis.Entry "4" (Some 90000) ]}
    = (Return (bf_demo_login.Build_answer false "Invalid credentials" (Some 5)),
       locked)
    /\ bf_demo_login.login_sim (fun s => s)
         (bf_demo_login.Build_LoginSimPayload "alice" "letmein")
         (rate_limit.Build_Request (Some "127.0.0.1"))
         (bf_demo_login.Build_round_trips 2000 2000 2000 2000 2000) locked
       = (Raise (HTTPException 429 "Too many login attempts. Try again later."
                   [("Retry-After", py_str seconds)]), locked)
    /\ 1 <= seconds.
Proof.
  apply (login_sim_fifth_failure_locks (fun s => s)
           (bf_demo_login.Build_LoginSimPayload "alice" "guess")
           (bf_demo_login.Build_LoginSimPayload "alice" "letmein")
           (rate_limit.Build_Request (Some "127.0.0.1"))
           (bf_demo_login.Build_round_trips 1000 1000 1000 1001 1001)
           (bf_demo_login.Build_round_trips 2000 2000 2000 2000 2000)
           {[ "bf:login-sim:fail:alice:127.0.0.1" := Redis.Entry "4" (Some 90000) ]}
           90000).
  - reflexivity.
  - simpl. lia.
  - reflexivity.
  - discriminate.
  - reflexivity.
  - simpl. lia.
Defined.

(** X7.  A successful simulated login wipes the slate: the failure counter
    and the lock of the pair are gone, so the next wrong password for the
    same normalised username and address is failure number 1 again. *)
Theorem login_sim_success_resets
    (normalize : string -> string)
    (payload next : bf_demo_login.LoginSimPayload)
    (request : rate_limit.Request) (at_ at_next : bf_demo_login.round_trips)
    (r : Redis.store) :
  let user := normalize (bf_demo_login.username payload) in
  let ip := rate_limit.client_ip request in
  Redis.find (bruteforce._lock_key bf_demo.CFG user ip)
    (bf_demo_login.at_exists at_) r = None ->
  bf_demo_login.password payload = "letmein" ->
  normalize (bf_demo_login.username next) = user ->
  bf_demo_login.password next <> "letmein" ->
  exists cleared,
    bf_demo_login.login_sim normalize payload request at_ r
    = (Return (bf_demo_login.Build_answer true "Login successful (simulated)"
                 None), cleared)
    /\ cleared !! bruteforce._fail_key bf_demo.CFG user ip = None
    /\ cleared !! bruteforce._lock_key bf_demo.CFG user ip = None
    /\ fst (bf_demo_login.login_sim normalize next request at_next cleared)
       = Return (bf_demo_login.Build_answer false "Invalid credentials" (Some 1)).
Proof.
  intros user ip Hfree Hright Hsame Hwrong.
  rewrite (login_sim_not_locked normalize payload request at_ r Hfree).
  rewrite bool_decide_eq_true_2 by done.
  fold user. fold ip.
  set (fk := bruteforce._fail_key bf_demo.CFG user ip).
  set (lk := bruteforce._lock_key bf_demo.CFG user ip).
  assert (fk <> lk) as Hkeys by apply fail_key_not_lock_key.
  eexists. split; [reflexivity|].
  split; [by rewrite lookup_delete_ne, lookup_delete_eq|].
  split; [by rewrite lookup_delete_eq|].
  rewrite (login_sim_not_locked normalize next request at_next);
    [|rewrite Hsame; fold user; fold ip; fold lk;
      unfold Redis.find; by rewrite lookup_delete_eq].
  rewrite bool_decide_eq_false_2 by done. rewrite Hsame. fold user. fold ip.
  rewrite (register_failure_first bf_demo.CFG user ip);
    [reflexivity | reflexivity | reflexivity |].
  fold fk. unfold Redis.find.
  by rewrite lookup_delete_ne, lookup_delete_eq.
Qed.

Lemma login_sim_success_resets_witness :
  exists cleared,
    bf_demo_login.login_sim (fun s => s)
      (bf_demo_login.Build_LoginSimPayload "alice" "letmein")
      (rate_limit.Build_Request (Some "127.0.0.1"))
      (bf_demo_login.Build_round_trips 1000 1000 1000 1000 1000)
      {[ "bf:login-sim:fail:alice:127.0.0.1" := Redis.Entry "3" (Some 90000) ]}
    = (Return (bf_demo_login.Build_answer true "Login successful (simulated)"
                 None), cleared)
    /\ cleared !! "bf:login-sim:fail:alice:127.0.0.1" = None
    /\ cleared !! "bf:login-sim:lock:alice:127.0.0.1" = None
    /\ fst (bf_demo_login.login_sim (fun s => s)
              (bf_demo_login.Build_LoginSimPayload "alice" "guess")
              (rate_limit.Build_Request (Some "127.0.0.1"))
              (bf_demo_login.Build_round_trips 2000 2000 2000 2000 2000)
              cleared)
       = Return (bf_demo_login.Build_answer false "Invalid credentials" (Some 1)).
Proof.
  apply (login_sim_success_resets (fun s => s)
           (bf_demo_login.Build_LoginSimPayload "alice" "letmein")
           (bf_demo_login.Build_LoginSimPayload "alice" "guess")
           (rate_limit.Build_Request (Some "127.0.0.1"))
           (bf_demo_login.Build_round_trips 1000 1000 1000 1000 1000)
           (bf_demo_login.Build_round_trips 2000 2000 2000 2000 2000)
           {[ "bf:login-sim:fail:alice:127.0.0.1" := Redis.Entry "3" (Some 90000) ]}).
  - reflexivity.
  - reflexivity.
  - reflexivity.
  - discriminate.
Defined.

(** ** The version counter of the list cache *)



(** ** Tokens of the two kinds *)

Section token_kinds.
Variable env : Settings.

Lemma access_token_decodes user_id role issued jti now :
  access_unexpired env issued now ->
  exists claims,
    security.decode_token env
      (security.create_access_token env user_id role issued jti) now
    = Return claims
    /\ claims !! "type" = Some (JStr "access")
    /\ claims !! "sub" = Some (JStr (py_str user_id))
    /\ claims !! "role" = Some (JStr role).
Proof.
  intros Hlive.
  destruct (access_payload_lookup env user_id role issued jti)
    as (payload & Htoken & Htype & Hsub & Hrole & Hiat & Hexp & Hjti).
  exists payload. rewrite Htoken, decode_encoded.
  rewrite (validate_issued payload now _ _ _ _ Hiat Hexp Hsub Hjti).
  apply Z.ltb_ge in Hlive. by rewrite Hlive.
Qed.

Lemma refresh_token_decodes user_id issued jti now :
  exists claims,
    security.decode_token env
      (fst (security.create_refresh_token env user_id issued jti)) now
    = (if security.int_timestamp
            (issued + security.timedelta_days (REFRESH_DAYS env))
          <? jwt.unix_seconds now
       then Raise ExpiredSignatureError else Return claims)
    /\ claims !! "type" = Some (JStr "refresh")
    /\ claims !! "sub" = Some (JStr (py_str user_id))
    /\ claims !! "jti" = Some (JStr jti)
    /\ claims !! "exp"
       = Some (JInt (security.int_timestamp
                       (issued + security.timedelta_days (REFRESH_DAYS env)))).
Proof.
  destruct (refresh_payload_lookup env user_id issued jti)
    as (payload & Htoken & Htype & Hsub & Hiat & Hexp & Hjti).
  exists payload. rewrite Htoken, decode_encoded.
  by rewrite (validate_issued payload now _ _ _ _ Hiat Hexp Hsub Hjti).
Qed.

Lemma refresh_token_presents user_id issued jti now :
  refresh_unexpired env issued now ->
  presents env (fst (security.create_refresh_token env user_id issued jti)) now
    (Some (JStr jti)) user_id.
Proof.
  intros Hlive.
  destruct (refresh_token_decodes user_id issued jti now)
    as (claims & Hdec & Htype & Hsub & Hjti & _).
  apply Z.ltb_ge in Hlive. rewrite Hlive in Hdec.
  exists claims. repeat split; try done.
  rewrite Hsub. simpl. by rewrite py_int_str.
Qed.

Lemma forged_undecodable token now :
  forged env token -> security.decode_token env token now = Raise JWTError.
Proof.
  unfold forged, security.decode_token, jwt.decode.
  destruct token as [raw|alg payload sig]; [done|].
  intros [Halg|Hsig].
  - rewrite bool_decide_eq_false_2; [done|].
    by intros ->%list_elem_of_singleton.
  - rewrite (bool_decide_eq_false_2 (sig = _)) by done.
    by rewrite andb_false_r.
Qed.

End token_kinds.



(** ** Resolving the current user *)

Lemma run_bind {A B : Type} (c : coroutine A) (k : A -> coroutine B) :
  forall db,
    run (bind c k) db
    = match run c db with
      | (Return a, db1) => run (k a) db1
      | (Raise e, db1) => (Raise e, db1)
      end.
Proof.
  induction c as [[a|e]|R stmt k' IH]; intros db; simpl; try done.
  destruct (stmt db) as [[x|e] db1]; [apply IH | done].
Qed.

Section current_user.
Variable env : Settings.

Lemma get_current_user_start user_id role issued jti now :
  access_unexpired env issued now ->
  deps.get_current_user env
    (security.create_access_token env user_id role issued jti) now
  = Await (session.select_user_by_id user_id) (fun res =>
      match scalar_one_or_none res with
      | Raise e => Done (Raise e)
      | Return None => auth.unauthorized "User not found"
      | Return (Some user) => Done (Return user)
      end).
Proof.
  intros Hlive.
  destruct (access_token_decodes env user_id role issued jti now Hlive)
    as (claims & Hdec & Htype & Hsub & _).
  unfold deps.get_current_user.
  rewrite Hdec, bool_decide_eq_true_2 by done. simpl.
  rewrite Hsub. simpl. by rewrite py_int_str.
Qed.

Lemma run_get_current_user user_id role issued jti now db :
  access_unexpired env issued now ->
  run (deps.get_current_user env
         (security.create_access_token env user_id role issued jti) now) db
  = (match scalar_one_or_none
             (List.filter (fun u => UserORM.id u =? user_id) (users db)) with
     | Raise e => Raise e
     | Return None => Raise (HTTPException 401 "User not found" [])
     | Return (Some user) => Return user
     end, db).
Proof.
  intros Hlive. rewrite (get_current_user_start _ _ _ _ _ Hlive).
  cbn [run session.select_user_by_id].
  by destruct (scalar_one_or_none _) as [[user|]|e].
Qed.

(** The check of an access token reads the users table and nothing else,
    and writes nothing. *)
Lemma get_current_user_reads_users token now db db' :
  users db = users db' ->
  exists o,
    run (deps.get_current_user env token now) db = (o, db)
    /\ run (deps.get_current_user env token now) db' = (o, db').
Proof.
  intros Husers. unfold deps.get_current_user.
  destruct (security.decode_token env token now) as [claims|e];
    [|by eexists].
  destruct (negb _); [by eexists|].
  destruct (deps.int_of_item _) as [user_id|e]; [|by eexists].
  cbn [run session.select_user_by_id]. rewrite <- Husers.
  destruct (scalar_one_or_none _) as [[user|]|e]; by eexists.
Qed.

End current_user.

(** X10.  The two kinds of token are not interchangeable: an unexpired
    access token presented to [refresh_token] is answered 401 "Not a
    refresh token", an unexpired refresh token presented as bearer token
    is answered 401 "Not an access token"; neither request writes. *)
Theorem token_kinds_not_interchangeable
    (env : Settings) (user_id : Z) (role : string) (issued : Z) (jti : string)
    (amb : auth.ambient) (now : Z) (db : database) :
  (access_unexpired env issued (auth.t_verify amb) ->
   run (auth.refresh_token env
          (security.create_access_token env user_id role issued jti) amb) db
   = (Raise (HTTPException 401 "Not a refresh token" []), db))
  /\ (refresh_unexpired env issued now ->
      run (deps.get_current_user env
             (fst (security.create_refresh_token env user_id issued jti)) now) db
      = (Raise (HTTPException 401 "Not an access token" []), db)).
Proof.
  split; intros Hlive.
  - destruct (access_token_decodes env user_id role issued jti _ Hlive)
      as (claims & Hdec & Htype & _).
    unfold auth.refresh_token. rewrite Hdec, Htype. reflexivity.
  - destruct (refresh_token_presents env user_id issued jti now Hlive)
      as (claims & Hdec & Htype & _).
    unfold deps.get_current_user. rewrite Hdec, Htype. reflexivity.
Qed.

Lemma token_kinds_not_interchangeable_witness :
  run (deps.get_current_user default_settings alice_token 1700000060000000)
    login_db
  = (Raise (HTTPException 401 "Not an access token" []), login_db).
Proof.
  apply (token_kinds_not_interchangeable default_settings 1 "user"
           1700000000000200 "r-0001" first_draw 1700000060000000 login_db).
  unfold refresh_unexpired. vm_compute. discriminate.
Defined.

(** X11.  A token the application has not signed (malformed, another
    algorithm, another key, a changed payload) gets the very answer an
    expired token of the application gets, from [refresh_token] and from
    [get_current_user] alike, and nothing is written: the answers do not
    tell a forged token from an expired one. *)
Theorem forged_tokens_answered_like_expired
    (env : Settings) (token : jwt.token) (amb : auth.ambient) (now : Z)
    (db : database) (user_id : Z) (role : string) (issued : Z) (jti : string) :
  forged env token ->
  ~ refresh_unexpired env issued (auth.t_verify amb) ->
  ~ access_unexpired env issued now ->
  run (auth.refresh_token env token amb) db
    = (Raise (HTTPException 401 "Invalid or expired refresh token" []), db)
  /\ run (auth.refresh_token env
            (fst (security.create_refresh_token env user_id issued jti)) amb) db
     = run (auth.refresh_token env token amb) db
  /\ run (deps.get_current_user env token now) db
     = (Raise (HTTPException 401 "Invalid or expired access token" []), db)
  /\ run (deps.get_current_user env
            (security.create_access_token env user_id role issued jti) now) db
     = run (deps.get_current_user env token now) db.
Proof.
  intros Hforged Hrefresh Haccess.
  pose proof (forged_undecodable env token (auth.t_verify amb) Hforged) as Hdec.
  pose proof (forged_undecodable env token now Hforged) as Hdec'.
  assert (run (auth.refresh_token env token amb) db
          = (Raise (HTTPException 401 "Invalid or expired refresh token" []), db))
    as Hrun by (by rewrite (refresh_token_undecodable env _ _ _ Hdec)).
  assert (run (deps.get_current_user env token now) db
          = (Raise (HTTPException 401 "Invalid or expired access token" []), db))
    as Hrun' by (by unfold deps.get_current_user; rewrite Hdec').
  split; [exact Hrun|]. split; [|split; [exact Hrun'|]].
  - rewrite Hrun.
    destruct (refresh_token_decodes env user_id issued jti (auth.t_verify amb))
      as (claims & Hexpired & _).
    unfold refresh_unexpired in Hrefresh. apply Z.nle_gt, Z.ltb_lt in Hrefresh.
    rewrite Hrefresh in Hexpired.
    by rewrite (refresh_token_undecodable env _ _ _ Hexpired).
  - rewrite Hrun'.
    destruct (access_payload_lookup env user_id role issued jti)
      as (payload & Htoken & Htype & Hsub & Hrole & Hiat & Hexp & Hjti).
    unfold deps.get_current_user. rewrite Htoken, decode_encoded.
    rewrite (validate_issued payload now _ _ _ _ Hiat Hexp Hsub Hjti).
    unfold access_unexpired in Haccess. apply Z.nle_gt, Z.ltb_lt in Haccess.
    by rewrite Haccess.
Qed.

Lemma forged_tokens_answered_like_expired_witness :
  run (auth.refresh_token default_settings alice_token late_draw) login_db
  = run (auth.refresh_token default_settings
           (jwt.encode ({[ "type" := JStr "refresh"; "sub" := JStr "1" ]})
              "guessed-secret" "HS256") late_draw) login_db.
Proof.
  destruct (forged_tokens_answered_like_expired default_settings
              (jwt.encode ({[ "type" := JStr "refresh"; "sub" := JStr "1" ]})
                 "guessed-secret" "HS256")
              late_draw 1700700000000000 login_db 1 "user" 1700000000000200
              "r-0001") as (_ & Hsame & _).
  - right. intros Heq. discriminate Heq.
  - unfold refresh_unexpired. vm_compute. by intros H.
  - unfold access_unexpired. vm_compute. by intros H.
  - exact Hsame.
Defined.

(** X12.  An unexpired access token resolves to the user row whose id is
    its subject, as the row is stored now: [me] answers with that row's
    id, username and role, and [require_role] compares the stored role,
    not the role claim the token was issued with, answering 403 when they
    differ.  Nothing is written. *)
Theorem access_token_resolves_stored_user
    (env : Settings) (user_id : Z) (role_claim : string) (issued : Z)
    (jti : string) (now : Z) (db : database) (user : UserORM.t)
    (required : string) :
  access_unexpired env issued now ->
  List.filter (fun u => UserORM.id u =? user_id) (users db) = [user] ->
  run (deps.get_current_user env
         (security.create_access_token env user_id role_claim issued jti) now) db
  = (Return user, db)
  /\ run (auth_endpoints.me env
            (security.create_access_token env user_id role_claim issued jti)
            now) db
     = (Return (Build_UserPublic user_id (UserORM.username user)
                  (UserORM.role user)), db)
  /\ run (deps.require_role env required
            (security.create_access_token env user_id role_claim issued jti)
            now) db
     = (if bool_decide (UserORM.role user = required)
        then Return user
        else Raise (HTTPException 403 "Forbidden" []), db).
Proof.
  intros Hlive Hrow.
  set (token := security.create_access_token env user_id role_claim issued jti).
  assert (run (deps.get_current_user env token now) db = (Return user, db))
    as Hrun.
  { subst token. rewrite (run_get_current_user env _ _ _ _ _ _ Hlive).
    by rewrite Hrow. }
  assert (UserORM.id user = user_id) as Hid.
  { assert (In user (List.filter (fun u => UserORM.id u =? user_id) (users db)))
      as Hin by (rewrite Hrow; by left).
    apply List.filter_In in Hin as [_ Hin]. by apply Z.eqb_eq. }
  split; [exact Hrun|]. split.
  - unfold auth_endpoints.me. rewrite run_bind, Hrun. simpl.
    unfold model_validate. by rewrite Hid.
  - unfold deps.require_role. rewrite run_bind, Hrun.
    by destruct (bool_decide _).
Qed.

Lemma access_token_resolves_stored_user_witness :
  run (deps.require_role default_settings "admin"
         (security.create_access_token default_settings 1 "admin"
            1700000000000100 "a-0001") 1700000060000000) alice_db
  = (Raise (HTTPException 403 "Forbidden" []), alice_db).
Proof.
  destruct (access_token_resolves_stored_user default_settings 1 "admin"
              1700000000000100 "a-0001" 1700000060000000 alice_db alice "admin")
    as (_ & _ & Hrole).
  - unfold access_unexpired. vm_compute. discriminate.
  - reflexivity.
  - exact Hrole.
Defined.

(** X13.  Access tokens are checked without the refresh-token table: the
    answer of [get_current_user] is the same on any two states of the
    tables that agree on the users, so revoking or rotating refresh
    tokens never invalidates an access token, and the check itself
    leaves the tables as they are. *)
Theorem get_current_user_ignores_refresh_tokens
    (env : Settings) (token : jwt.token) (now : Z) (db db' : database) :
  users db = users db' ->
  fst (run (deps.get_current_user env token now) db)
    = fst (run (deps.get_current_user env token now) db')
  /\ snd (run (deps.get_current_user env token now) db) = db
  /\ snd (run (deps.get_current_user env token now) db') = db'.
Proof.
  intros Husers.
  destruct (get_current_user_reads_users env token now db db' Husers)
    as (o & -> & ->).
  done.
Qed.

Lemma get_current_user_ignores_refresh_tokens_witness :
  fst (run (deps.get_current_user default_settings
              (security.create_access_token default_settings 1 "user"
                 1700000000000100 "a-0001") 1700000060000000) login_db)
  = fst (run (deps.get_current_user default_settings
                (security.create_access_token default_settings 1 "user"
                   1700000000000100 "a-0001") 1700000060000000) (snd rotated)).
Proof.
  apply (get_current_user_ignores_refresh_tokens default_settings
           (security.create_access_token default_settings 1 "user"
              1700000000000100 "a-0001") 1700000060000000 login_db (snd rotated)).
  vm_compute. reflexivity.
Defined.

(** ** Issuing and rotating *)

Section issuing.
Variable env : Settings.

(** The row a pair is stored under. *)
Let new_row (db : database) (user_id : Z) (amb : auth.ambient)
  : RefreshTokenORM.t :=
  RefreshTokenORM.Build_t (refresh_tokens_id_seq db + 1) (auth.jti_refresh amb)
    user_id
    (auth.t_refresh amb + security.timedelta_days (REFRESH_DAYS env)) false.

Let new_pair (user : UserORM.t) (amb : auth.ambient) : TokenPair :=
  Build_TokenPair
    (security.create_access_token env (UserORM.id user) (UserORM.role user)
       (auth.t_access amb) (auth.jti_access amb))
    (fst (security.create_refresh_token env (UserORM.id user)
            (auth.t_refresh amb) (auth.jti_refresh amb)))
    "bearer".

Lemma run_issue_pair_accepts user amb db :
  refresh_unexpired env (auth.t_refresh amb) (auth.t_verify_new amb) ->
  no_conflict (auth.jti_refresh amb) db ->
  In user (users db) ->
  run (issue_pair env user amb) db
  = (Return (new_pair user amb),
     Build_database (users db)
       (refresh_tokens db ++ [new_row db (UserORM.id user) amb])
       (refresh_tokens_id_seq db + 1)).
Proof.
  intros Hlive Hfree Hin. rewrite issue_pair_eq.
  destruct (refresh_token_presents env (UserORM.id user) (auth.t_refresh amb)
              (auth.jti_refresh amb) _ Hlive) as (claims & -> & _).
  cbn [run].
  assert (existsb (fun u => UserORM.id u =? UserORM.id user) (users db) = true)
    as Huser.
  { apply existsb_exists. exists user. split; [done | apply Z.eqb_refl]. }
  destruct (commit_add_accepts (auth.jti_refresh amb) (UserORM.id user)
              (snd (security.create_refresh_token env (UserORM.id user)
                      (auth.t_refresh amb) (auth.jti_refresh amb)))
              false db Hfree Huser) as [db1 Hadd].
  rewrite Hadd. apply commit_add_returns in Hadd as (_ & _ & ->).
  reflexivity.
Qed.

Lemma run_login_verified username password amb db u :
  List.filter (fun row => bool_decide (UserORM.username row = username))
    (users db) = [u] ->
  security.verify_password env password (UserORM.password_hash u) = true ->
  run (auth.login env username password amb) db
  = run (issue_pair env u amb) db.
Proof.
  intros Hrow Hverify. unfold auth.login.
  cbn [run session.select_user_by_username]. rewrite Hrow.
  cbn [scalar_one_or_none]. rewrite Hverify. reflexivity.
Qed.

Lemma filter_singleton_In {A : Type} (p : A -> bool) (l : list A) (x : A) :
  List.filter p l = [x] -> In x l /\ p x = true.
Proof.
  intros Heq. apply List.filter_In. rewrite Heq. by left.
Qed.

(** A rotation of a token issued by the application, spelled out: what it
    needs of the tables and the clock, and what it returns and leaves. *)
Lemma run_refresh_token_accepts user_id issued jti amb db rt user :
  refresh_unexpired env issued (auth.t_verify amb) ->
  rows_with_jti (Some (JStr jti)) db = [rt] ->
  RefreshTokenORM.revoked rt = false ->
  List.filter (fun u => UserORM.id u =? user_id) (users db) = [user] ->
  refresh_unexpired env (auth.t_refresh amb) (auth.t_verify_new amb) ->
  no_conflict (auth.jti_refresh amb) db ->
  run (auth.refresh_token env
         (fst (security.create_refresh_token env user_id issued jti)) amb) db
  = (Return (new_pair user amb),
     Build_database (users db)
       (refresh_tokens (revoke_row rt db) ++ [new_row db user_id amb])
       (refresh_tokens_id_seq db + 1)).
Proof.
  intros Hlive Hrows Hunrevoked Huser Hlive' Hfree.
  pose proof (refresh_token_presents env user_id issued jti _ Hlive) as Hpresents.
  destruct (run_lookup_live env _ amb _ user_id rt db Hpresents Hrows Hunrevoked)
    as (_ & _ & ->).
  unfold after_revoke. cbn [run session.select_user_by_id].
  change (users (revoke_row rt db)) with (users db). rewrite Huser.
  cbn [scalar_one_or_none].
  destruct (filter_singleton_In _ _ _ Huser) as [Hin Hid].
  apply Z.eqb_eq in Hid.
  rewrite (run_issue_pair_accepts user amb (revoke_row rt db) Hlive');
    [by rewrite Hid | by apply no_conflict_revoke_row | done].
Qed.

(** What a rotation that returned has returned and left behind. *)
Lemma run_after_revoke_detail user_id amb db pair db1 :
  run (after_revoke env user_id amb) db = (Return pair, db1) ->
  exists user,
    List.filter (fun u => UserORM.id u =? user_id) (users db) = [user]
    /\ UserORM.id user = user_id
    /\ pair = new_pair user amb
    /\ no_conflict (auth.jti_refresh amb) db
    /\ db1 = Build_database (users db)
               (refresh_tokens db ++ [new_row db user_id amb])
               (refresh_tokens_id_seq db + 1).
Proof.
  unfold after_revoke. cbn [run session.select_user_by_id].
  destruct (List.filter _ (users db)) as [|user [|? ?]] eqn:Husers;
    try (intros Hrun; discriminate Hrun).
  cbn [scalar_one_or_none]. rewrite issue_pair_eq.
  destruct (security.decode_token env _ _) as [claims|e];
    [|intros Hrun; discriminate Hrun].
  cbn [run].
  destruct (session.commit_add_refresh_token _ _ _ _ db) as [[[]|e] db2] eqn:Hadd;
    [|intros Hrun; discriminate Hrun].
  intros [= <- <-].
  apply commit_add_returns in Hadd as (Hfree & _ & ->).
  destruct (filter_singleton_In _ _ _ Husers) as [_ Hid]. apply Z.eqb_eq in Hid.
  exists user. subst user_id. done.
Qed.

End issuing.

(** X14.  A login with the password of an existing user returns an access
    token for the user's id and stored role and a refresh token, and
    stores exactly one new row: the refresh token's [jti], the user's id,
    the refresh token's expiry, unrevoked.  It needs the drawn [jti] (and
    the id from the sequence) to be free; nothing else in the tables
    changes. *)
Theorem login_issues_and_stores
    (env : Settings) (username password : string) (amb : auth.ambient)
    (db : database) (u : UserORM.t) :
  List.filter (fun row => bool_decide (UserORM.username row = username))
    (users db) = [u] ->
  security.verify_password env password (UserORM.password_hash u) = true ->
  refresh_unexpired env (auth.t_refresh amb) (auth.t_verify_new amb) ->
  no_conflict (auth.jti_refresh amb) db ->
  run (auth.login env username password amb) db
  = (Return
       (Build_TokenPair
          (security.create_access_token env (UserORM.id u) (UserORM.role u)
             (auth.t_access amb) (auth.jti_access amb))
          (fst (security.create_refresh_token env (UserORM.id u)
                  (auth.t_refresh amb) (auth.jti_refresh amb)))
          "bearer"),
     Build_database (users db)
       (refresh_tokens db
          ++ [RefreshTokenORM.Build_t (refresh_tokens_id_seq db + 1)
                (auth.jti_refresh amb) (UserORM.id u)
                (snd (security.create_refresh_token env (UserORM.id u)
                        (auth.t_refresh amb) (auth.jti_refresh amb)))
                false])
       (refresh_tokens_id_seq db + 1)).
Proof.
  intros Hrow Hverify Hlive Hfree.
  rewrite (run_login_verified env username password amb db u Hrow Hverify).
  destruct (filter_singleton_In _ _ _ Hrow) as [Hin _].
  by rewrite (run_issue_pair_accepts env u amb db Hlive Hfree Hin).
Qed.

Lemma login_issues_and_stores_witness :
  snd (run (auth.login default_settings "alice" "alice12345" first_draw) alice_db)
  = Build_database [alice] [alice_row] 1.
Proof.
  rewrite (login_issues_and_stores default_settings "alice" "alice12345"
             first_draw alice_db alice).
  - reflexivity.
  - reflexivity.
  - reflexivity.
  - unfold refresh_unexpired. vm_compute. discriminate.
  - constructor.
Defined.

Section chains.
Variable env : Settings.

Lemma rows_with_jti_fresh jti db :
  no_conflict jti db -> rows_with_jti (Some (JStr jti)) db = [].
Proof.
  unfold no_conflict, rows_with_jti. intros Hfree.
  apply filter_nil_Forall. eapply Forall_impl; [exact Hfree|].
  intros row [_ Hjti]. apply bool_decide_eq_false_2. by intros [= ->].
Qed.

Lemma rows_with_jti_appended db row ids seq :
  no_conflict (RefreshTokenORM.jti row) db ->
  rows_with_jti (Some (JStr (RefreshTokenORM.jti row)))
    (Build_database ids (refresh_tokens db ++ [row]) seq) = [row].
Proof.
  intros Hfree. pose proof (rows_with_jti_fresh _ _ Hfree) as Hnone.
  unfold rows_with_jti in *. simpl. rewrite List.filter_app, Hnone. simpl.
  by rewrite bool_decide_eq_true_2.
Qed.

(** A pair that has just been stored can be rotated. *)
Lemma stored_pair_rotates db0 user amb1 amb2 :
  no_conflict (auth.jti_refresh amb1) db0 ->
  List.filter (fun u => UserORM.id u =? UserORM.id user) (users db0) = [user] ->
  let db1 :=
    Build_database (users db0)
      (refresh_tokens db0
         ++ [RefreshTokenORM.Build_t (refresh_tokens_id_seq db0 + 1)
               (auth.jti_refresh amb1) (UserORM.id user)
               (auth.t_refresh amb1 + security.timedelta_days (REFRESH_DAYS env))
               false])
      (refresh_tokens_id_seq db0 + 1) in
  refresh_unexpired env (auth.t_refresh amb1) (auth.t_verify amb2) ->
  refresh_unexpired env (auth.t_refresh amb2) (auth.t_verify_new amb2) ->
  no_conflict (auth.jti_refresh amb2) db1 ->
  exists pair2 db2,
    run (auth.refresh_token env
           (fst (security.create_refresh_token env (UserORM.id user)
                   (auth.t_refresh amb1) (auth.jti_refresh amb1))) amb2) db1
    = (Return pair2, db2)
    /\ refresh_token pair2
       = fst (security.create_refresh_token env (UserORM.id user)
                (auth.t_refresh amb2) (auth.jti_refresh amb2)).
Proof.
  intros Hfree1 Huser db1 Hlive Hlive' Hfree2.
  eexists _, _. split.
  - eapply (run_refresh_token_accepts env (UserORM.id user)); try done.
    + subst db1. eapply (rows_with_jti_appended db0 (RefreshTokenORM.Build_t _ _ _ _ _)).
      exact Hfree1.
    + reflexivity.
  - reflexivity.
Qed.

End chains.

Section chain_inversions.
Variable env : Settings.

Lemma filter_by_unique_id (l : list UserORM.t) (u : UserORM.t) :
  NoDup (map UserORM.id l) -> In u l ->
  List.filter (fun row => UserORM.id row =? UserORM.id u) l = [u].
Proof.
  induction l as [|x l IH]; intros Hnodup Hin; [done|].
  apply NoDup_cons in Hnodup as [Hfresh Hnodup]. simpl.
  destruct Hin as [->|Hin].
  - rewrite Z.eqb_refl. f_equal. apply filter_nil_Forall.
    apply Forall_forall. intros row Hrow. apply Z.eqb_neq. intros Heq.
    apply Hfresh. rewrite <- Heq. apply list_elem_of_fmap. by exists row.
  - assert (UserORM.id x <> UserORM.id u) as Hne.
    { intros Heq. apply Hfresh. rewrite Heq.
      apply list_elem_of_fmap. exists u. split; [done|].
      by apply list_elem_of_In. }
    apply Z.eqb_neq in Hne. rewrite Hne. by apply IH.
Qed.

Lemma run_issue_pair_detail user amb db pair db1 :
  run (issue_pair env user amb) db = (Return pair, db1) ->
  refresh_token pair
    = fst (security.create_refresh_token env (UserORM.id user)
             (auth.t_refresh amb) (auth.jti_refresh amb))
  /\ no_conflict (auth.jti_refresh amb) db
  /\ db1 = Build_database (users db)
             (refresh_tokens db
                ++ [RefreshTokenORM.Build_t (refresh_tokens_id_seq db + 1)
                      (auth.jti_refresh amb) (UserORM.id user)
                      (auth.t_refresh amb
                       + security.timedelta_days (REFRESH_DAYS env)) false])
             (refresh_tokens_id_seq db + 1).
Proof.
  rewrite issue_pair_eq.
  destruct (security.decode_token env _ _) as [claims|e];
    [|intros Hrun; discriminate Hrun].
  cbn [run].
  destruct (session.commit_add_refresh_token _ _ _ _ db) as [[[]|e] db2] eqn:Hadd;
    [|intros Hrun; discriminate Hrun].
  intros [= <- <-].
  by apply commit_add_returns in Hadd as (Hfree & _ & ->).
Qed.

Lemma run_login_returns username password amb db pair db1 :
  run (auth.login env username password amb) db = (Return pair, db1) ->
  exists u,
    In u (users db)
    /\ security.verify_password env password (UserORM.password_hash u) = true
    /\ run (issue_pair env u amb) db = (Return pair, db1).
Proof.
  unfold auth.login. cbn [run session.select_user_by_username].
  destruct (List.filter _ (users db)) as [|u [|? ?]] eqn:Hrow;
    try (intros Hrun; discriminate Hrun).
  cbn [scalar_one_or_none].
  destruct (security.verify_password env password (UserORM.password_hash u))
    eqn:Hverify; [|intros Hrun; discriminate Hrun].
  intros Hrun. exists u.
  destruct (filter_singleton_In _ _ _ Hrow) as [Hin _]. done.
Qed.

(** Tokens made with different [jti]s are different tokens. *)
Lemma refresh_tokens_differ user_id issued1 jti1 issued2 jti2 :
  jti1 <> jti2 ->
  fst (security.create_refresh_token env user_id issued1 jti1)
  <> fst (security.create_refresh_token env user_id issued2 jti2).
Proof.
  intros Hne Heq.
  destruct (refresh_payload_lookup env user_id issued1 jti1)
    as (p1 & H1 & _ & _ & _ & _ & Hjti1).
  destruct (refresh_payload_lookup env user_id issued2 jti2)
    as (p2 & H2 & _ & _ & _ & _ & Hjti2).
  rewrite H1, H2 in Heq. injection Heq as Hp _.
  rewrite Hp in Hjti1. congruence.
Qed.

(** The [jti] drawn for a successor is not the one just stored. *)
Lemma no_conflict_appended jti db row ids seq :
  no_conflict jti (Build_database ids (refresh_tokens db ++ [row]) seq) ->
  RefreshTokenORM.jti row <> jti.
Proof.
  unfold no_conflict. simpl. rewrite Forall_app, Forall_singleton.
  by intros [_ [_ Hjti]].
Qed.

End chain_inversions.

(** X15.  The refresh token a login hands out is accepted by
    [refresh_token]: presented while unexpired, with a free [jti] drawn
    for its successor, it is exchanged for a new pair with a different
    refresh token. *)
Theorem login_then_refresh
    (env : Settings) (username password : string) (amb1 amb2 : auth.ambient)
    (db db1 : database) (pair : TokenPair) :
  NoDup (map UserORM.id (users db)) ->
  run (auth.login env username password amb1) db = (Return pair, db1) ->
  refresh_unexpired env (auth.t_refresh amb1) (auth.t_verify amb2) ->
  refresh_unexpired env (auth.t_refresh amb2) (auth.t_verify_new amb2) ->
  no_conflict (auth.jti_refresh amb2) db1 ->
  exists pair2 db2,
    run (auth.refresh_token env (refresh_token pair) amb2) db1
    = (Return pair2, db2)
    /\ refresh_token pair2 <> refresh_token pair.
Proof.
  intros Hids Hlogin Hlive Hlive' Hfree2.
  destruct (run_login_returns env _ _ _ _ _ _ Hlogin) as (u & Hin & _ & Hissue).
  destruct (run_issue_pair_detail env _ _ _ _ _ Hissue) as (Htoken & Hfree1 & ->).
  destruct (stored_pair_rotates env db u amb1 amb2 Hfree1
              (filter_by_unique_id _ _ Hids Hin) Hlive Hlive' Hfree2)
    as (pair2 & db2 & Hrun & Htoken2).
  exists pair2, db2. rewrite Htoken. split; [exact Hrun|].
  rewrite Htoken2. apply refresh_tokens_differ.
  intros Heq. by apply (no_conflict_appended _ _ _ _ _ Hfree2).
Qed.

Lemma login_then_refresh_witness :
  exists pair2 db2,
    run (auth.refresh_token default_settings alice_token second_draw) login_db
    = (Return pair2, db2)
    /\ refresh_token pair2 <> alice_token.
Proof.
  destruct (run (auth.login default_settings "alice" "alice12345" first_draw)
              alice_db) as [[pair|e] db1] eqn:Hlogin;
    [|vm_compute in Hlogin; discriminate Hlogin].
  assert (refresh_token pair = alice_token /\ db1 = login_db) as [Htoken ->].
  { vm_compute in Hlogin. injection Hlogin as <- <-.
    split; vm_compute; reflexivity. }
  rewrite <- Htoken.
  apply (login_then_refresh default_settings "alice" "alice12345" first_draw
           second_draw alice_db login_db pair).
  - repeat constructor. by intros H%elem_of_nil.
  - exact Hlogin.
  - unfold refresh_unexpired. vm_compute. discriminate.
  - unfold refresh_unexpired. vm_compute. discriminate.
  - unfold no_conflict. vm_compute. repeat constructor; discriminate.
Defined.

(** X16.  Rotation chains: the refresh token returned by a rotation is in
    turn accepted by [refresh_token] (while unexpired, with a free [jti]
    for its successor), and the pair it is exchanged for carries yet
    another refresh token. *)
Theorem rotated_token_is_accepted
    (env : Settings) (token : jwt.token) (amb1 amb2 : auth.ambient)
    (db db1 : database) (pair : TokenPair) :
  run (auth.refresh_token env token amb1) db = (Return pair, db1) ->
  refresh_unexpired env (auth.t_refresh amb1) (auth.t_verify amb2) ->
  refresh_unexpired env (auth.t_refresh amb2) (auth.t_verify_new amb2) ->
  no_conflict (auth.jti_refresh amb2) db1 ->
  exists pair2 db2,
    run (auth.refresh_token env (refresh_token pair) amb2) db1
    = (Return pair2, db2)
    /\ refresh_token pair2 <> refresh_token pair.
Proof.
  intros Hfirst Hlive Hlive' Hfree2.
  destruct (refresh_token_returns env token amb1 db pair db1 Hfirst)
    as (jti & user_id & rt & _ & _ & _ & Hafter & _).
  destruct (run_after_revoke_detail env _ _ _ _ _ Hafter)
    as (user & Huser & Hid & -> & Hfree1 & ->).
  subst user_id.
  destruct (stored_pair_rotates env (revoke_row rt db) user amb1 amb2 Hfree1
              Huser Hlive Hlive' Hfree2)
    as (pair2 & db2 & Hrun & Htoken2).
  exists pair2, db2. split; [exact Hrun|].
  rewrite Htoken2. cbn [refresh_token]. apply refresh_tokens_differ.
  intros Heq. by apply (no_conflict_appended _ _ _ _ _ Hfree2).
Qed.

Lemma rotated_token_is_accepted_witness :
  exists pair pair2 db2,
    fst rotated = Return pair
    /\ run (auth.refresh_token default_settings (refresh_token pair) third_draw)
         (snd rotated)
       = (Return pair2, db2)
    /\ refresh_token pair2 <> refresh_token pair.
Proof.
  destruct rotated as [[pair|e] db1] eqn:Hrotated;
    [|apply (f_equal fst) in Hrotated; vm_compute in Hrotated;
      discriminate Hrotated].
  exists pair.
  destruct (rotated_token_is_accepted default_settings alice_token second_draw
              third_draw login_db db1 pair Hrotated)
    as (pair2 & db2 & Hrun & Hne).
  - unfold refresh_unexpired. vm_compute. discriminate.
  - unfold refresh_unexpired. vm_compute. discriminate.
  - apply (f_equal snd) in Hrotated. cbn [snd] in Hrotated. subst db1.
    unfold no_conflict. vm_compute. repeat constructor; discriminate.
  - by exists pair2, db2.
Defined.

(** ** What no request does *)

Lemma keeps_bind {A B : Type} (Inv : database -> Prop)
    (c : coroutine A) (k : A -> coroutine B) :
  keeps Inv c -> (forall a, keeps Inv (k a)) -> keeps Inv (bind c k).
Proof.
  intros Hc Hk. induction Hc as [[a|e]|R stmt k' Hstmt _ IH]; simpl.
  - apply Hk.
  - constructor.
  - constructor; [exact Hstmt | exact IH].
Qed.

Lemma interleave_keeps {A B : Type} (Inv : database -> Prop)
    (schedule : list bool) :
  forall (ta : coroutine A) (tb : coroutine B) db,
    keeps Inv ta -> keeps Inv tb -> Inv db ->
    Inv (snd (interleave schedule ta tb db)).
Proof.
  induction schedule as [|[|] rest IH]; intros ta tb db Ha Hb Hinv.
  - simpl. pose proof (run_keeps Inv ta Ha db Hinv) as Hinv1.
    destruct (run ta db) as [oa db1].
    pose proof (run_keeps Inv tb Hb db1 Hinv1) as Hinv2.
    by destruct (run tb db1) as [ob db2].
  - simpl. destruct (step_keeps Inv ta db Ha Hinv) as [Ha' Hinv'].
    destruct (step ta db) as [ta' db']. by apply IH.
  - simpl. destruct (step_keeps Inv tb db Hb Hinv) as [Hb' Hinv'].
    destruct (step tb db) as [tb' db']. by apply IH.
Qed.

(** An invariant of the three writing statements is an invariant of every
    request. *)
Section requests_keep.
Variable env : Settings.
Variable Inv : database -> Prop.
Hypothesis revoke_keeps : forall rt db, Inv db -> Inv (revoke_row rt db).
Hypothesis add_token_keeps :
  forall jti user_id expires_at revoked db,
    Inv db ->
    Inv (snd (session.commit_add_refresh_token jti user_id expires_at revoked db)).
Hypothesis add_user_keeps :
  forall new_id username password_hash role db,
    Inv db ->
    Inv (snd (session_users.commit_add_user new_id username password_hash role db)).

Lemma issue_pair_keeps_inv user amb : keeps Inv (issue_pair env user amb).
Proof.
  unfold issue_pair.
  destruct (security.create_refresh_token env _ _ _) as [refresh refresh_exp].
  destruct (security.decode_token env refresh _) as [refresh_claims|e];
    [|constructor].
  destruct (refresh_claims !! "jti") as [[new_jti|n]|]; try constructor.
  - intros db. apply add_token_keeps.
  - intros _. constructor.
Qed.

Lemma after_revoke_keeps_inv user_id amb :
  keeps Inv (after_revoke env user_id amb).
Proof.
  unfold after_revoke. constructor; [done|].
  intros ures. destruct (scalar_one_or_none ures) as [[user|]|e];
    try constructor.
  apply issue_pair_keeps_inv.
Qed.

Lemma after_lookup_keeps_inv user_id amb res :
  keeps Inv (after_lookup env user_id amb res).
Proof.
  unfold after_lookup. destruct (scalar_one_or_none res) as [[rt|]|e];
    try constructor.
  destruct (RefreshTokenORM.revoked rt); constructor.
  - intros db. apply revoke_keeps.
  - intros _. apply after_revoke_keeps_inv.
Qed.

Lemma refresh_token_keeps_inv token amb :
  keeps Inv (auth.refresh_token env token amb).
Proof.
  unfold auth.refresh_token.
  destruct (security.decode_token env token _) as [claims|e]; [|constructor].
  destruct (negb _); [constructor|].
  destruct (auth.int_of_claim _) as [user_id|e]; [|constructor].
  constructor; [done|]. intros res.
  apply (after_lookup_keeps_inv user_id amb res).
Qed.

Lemma login_keeps_inv username password amb :
  keeps Inv (auth.login env username password amb).
Proof.
  unfold auth.login. constructor; [done|]. intros res.
  destruct (scalar_one_or_none res) as [[u|]|e]; try constructor.
  destruct (security.verify_password env password _); [|constructor].
  apply (issue_pair_keeps_inv u amb).
Qed.

Lemma get_current_user_keeps_inv token now :
  keeps Inv (deps.get_current_user env token now).
Proof.
  unfold deps.get_current_user.
  destruct (security.decode_token env token now) as [claims|e]; [|constructor].
  destruct (negb _); [constructor|].
  destruct (deps.int_of_item _) as [user_id|e]; [|constructor].
  constructor; [done|]. intros res.
  destruct (scalar_one_or_none res) as [[u|]|e]; constructor.
Qed.

Lemma register_keeps_inv username password new_id :
  keeps Inv (auth_endpoints.register env username password new_id).
Proof.
  unfold auth_endpoints.register. constructor; [done|]. intros res.
  destruct (scalar_one_or_none res) as [[u|]|e]; try constructor.
  - intros db. apply add_user_keeps.
  - intros user. constructor.
Qed.

Lemma serve_keeps rq : keeps Inv (serve env rq).
Proof.
  destruct rq; unfold serve; apply keeps_bind; try (intros ?; constructor).
  - apply register_keeps_inv.
  - apply login_keeps_inv.
  - apply refresh_token_keeps_inv.
  - unfold auth_endpoints.me. apply keeps_bind; [|intros ?; constructor].
    apply get_current_user_keeps_inv.
  - unfold auth_endpoints.admin_only, deps.require_role.
    apply keeps_bind; [|intros ?; constructor].
    apply keeps_bind; [apply get_current_user_keeps_inv|].
    intros user. destruct (negb _); constructor.
Qed.

Lemma serve_all_keeps rqs :
  forall db, Inv db -> Inv (snd (serve_all env rqs db)).
Proof.
  induction rqs as [|rq rest IH]; intros db Hinv; [done|]. simpl.
  pose proof (run_keeps Inv _ (serve_keeps rq) db Hinv) as Hinv1.
  destruct (run (serve env rq) db) as [o db1].
  specialize (IH db1 Hinv1).
  by destruct (serve_all env rest db1) as [os db2].
Qed.

End requests_keep.

Lemma set_revoked_same row :
  RefreshTokenORM.set_revoked (RefreshTokenORM.revoked row) row = row.
Proof. by destruct row. Qed.

Lemma survives_revoke_row row rt db :
  survives row db -> survives row (revoke_row rt db).
Proof.
  unfold survives, revoke_row. simpl. rewrite !in_map_iff.
  intros [Hin|Hin].
  - destruct (RefreshTokenORM.id row =? RefreshTokenORM.id rt) eqn:Hid.
    + right. exists row. by rewrite Hid.
    + left. exists row. by rewrite Hid.
  - right. exists (RefreshTokenORM.set_revoked true row). split; [|done].
    by destruct (_ =? _).
Qed.

Lemma survives_add_token row jti user_id expires_at revoked db :
  survives row db ->
  survives row
    (snd (session.commit_add_refresh_token jti user_id expires_at revoked db)).
Proof.
  unfold survives, session.commit_add_refresh_token.
  destruct (_ || _); simpl; [done|]. rewrite !in_app_iff. tauto.
Qed.

Lemma survives_add_user row new_id username password_hash role db :
  survives row db ->
  survives row
    (snd (session_users.commit_add_user new_id username password_hash role db)).
Proof.
  unfold survives, session_users.commit_add_user. by destruct (existsb _ _).
Qed.

(** X17.  No request ever deletes a refresh-token row, changes any of its
    fields other than [revoked], or sets [revoked] back to false: under
    every schedule of two concurrent requests and after every sequence of
    requests, a row that was in the table is still there, as it was or
    revoked, and a revoked row is there unchanged. *)
Theorem refresh_rows_are_only_ever_revoked
    (env : Settings) (row : RefreshTokenORM.t) (db : database) :
  In row (refresh_tokens db) ->
  (forall schedule rq1 rq2,
      survives row
        (snd (interleave schedule (serve env rq1) (serve env rq2) db))
      /\ (RefreshTokenORM.revoked row = true ->
          In row
            (refresh_tokens
               (snd (interleave schedule (serve env rq1) (serve env rq2) db)))))
  /\ (forall rqs,
        survives row (snd (serve_all env rqs db))
        /\ (RefreshTokenORM.revoked row = true ->
            In row (refresh_tokens (snd (serve_all env rqs db))))).
Proof.
  intros Hin.
  assert (forall db', survives row db' ->
            RefreshTokenORM.revoked row = true -> In row (refresh_tokens db'))
    as Hrevoked.
  { intros db' Hsurvives Hrow. unfold survives in Hsurvives.
    rewrite <- Hrow, set_revoked_same in Hsurvives. tauto. }
  assert (survives row db) as Hstart by (by left).
  split.
  - intros schedule rq1 rq2.
    set (db' := snd (interleave schedule (serve env rq1) (serve env rq2) db)).
    assert (survives row db') as Hsurvives; [|by split; [|apply Hrevoked]].
    apply interleave_keeps; [| |done];
      apply serve_keeps;
      auto using survives_revoke_row, survives_add_token, survives_add_user.
  - intros rqs. set (db' := snd (serve_all env rqs db)).
    assert (survives row db') as Hsurvives; [|by split; [|apply Hrevoked]].
    apply serve_all_keeps;
      auto using survives_revoke_row, survives_add_token, survives_add_user.
Qed.

Lemma refresh_rows_are_only_ever_revoked_witness :
  In (RefreshTokenORM.set_revoked true alice_row)
    (refresh_tokens
       (snd (serve_all default_settings
               [Refresh alice_token third_draw;
                Login "alice" "alice12345" third_draw;
                Register "bob" "bob-secret" 2]
               (snd rotated)))).
Proof.
  destruct (refresh_rows_are_only_ever_revoked default_settings
              (RefreshTokenORM.set_revoked true alice_row) (snd rotated))
    as [_ Hseq].
  - vm_compute. by left.
  - apply (Hseq [Refresh alice_token third_draw;
                 Login "alice" "alice12345" third_draw;
                 Register "bob" "bob-secret" 2]).
    reflexivity.
Defined.

Lemma users_revoke_row rt db : users (revoke_row rt db) = users db.
Proof. reflexivity. Qed.

Lemma users_add_token jti user_id expires_at revoked db :
  users (snd (session.commit_add_refresh_token jti user_id expires_at revoked db))
  = users db.
Proof. unfold session.commit_add_refresh_token. by destruct (_ || _). Qed.

(** X18.  No request deletes a user row or changes one: whatever two
    concurrent requests or a sequence of requests do, a user that was in
    the table is still there with the same id, name, password hash and
    role. *)
Theorem user_rows_are_never_changed
    (env : Settings) (user : UserORM.t) (db : database) :
  In user (users db) ->
  (forall schedule rq1 rq2,
      In user
        (users (snd (interleave schedule (serve env rq1) (serve env rq2) db))))
  /\ (forall rqs, In user (users (snd (serve_all env rqs db)))).
Proof.
  intros Hin.
  set (Inv := fun db' : database => In user (users db')).
  assert (forall rt db', Inv db' -> Inv (revoke_row rt db')) as Hrevoke by done.
  assert (forall jti user_id expires_at revoked db',
             Inv db' ->
             Inv (snd (session.commit_add_refresh_token
                         jti user_id expires_at revoked db'))) as Htoken.
  { intros. unfold Inv. by rewrite users_add_token. }
  assert (forall new_id username password_hash role db',
             Inv db' ->
             Inv (snd (session_users.commit_add_user
                         new_id username password_hash role db'))) as Huser.
  { intros new_id username password_hash role db' Hdb'. unfold Inv.
    unfold session_users.commit_add_user. destruct (existsb _ _); [done|].
    simpl. apply in_app_iff. by left. }
  split.
  - intros schedule rq1 rq2.
    apply (interleave_keeps Inv); [| |done]; by apply serve_keeps.
  - intros rqs. by apply (serve_all_keeps env Inv).
Qed.

Lemma user_rows_are_never_changed_witness :
  In alice
    (users (snd (serve_all default_settings
                   [Register "alice" "other-password" 7;
                    Register "mallory" "alice12345" 1;
                    Refresh alice_token second_draw]
                   login_db))).
Proof.
  apply (user_rows_are_never_changed default_settings alice login_db).
  vm_compute. by left.
Defined.

Lemma map_set_revoked_id (P : RefreshTokenORM.t -> bool) rows :
  map RefreshTokenORM.id
    (map (fun r => if P r then RefreshTokenORM.set_revoked true r else r) rows)
  = map RefreshTokenORM.id rows.
Proof.
  rewrite map_map. apply map_ext. intros r. by destruct (P r).
Qed.

Lemma map_set_revoked_jti (P : RefreshTokenORM.t -> bool) rows :
  map RefreshTokenORM.jti
    (map (fun r => if P r then RefreshTokenORM.set_revoked true r else r) rows)
  = map RefreshTokenORM.jti rows.
Proof.
  rewrite map_map. apply map_ext. intros r. by destruct (P r).
Qed.

Lemma well_formed_revoke_row rt db :
  well_formed db -> well_formed (revoke_row rt db).
Proof.
  intros [Huid Huname Htid Hjti Hseq].
  split; unfold revoke_row; simpl; try done.
  - by rewrite map_set_revoked_id.
  - by rewrite map_set_revoked_jti.
  - apply List.Forall_forall. intros r Hr.
    apply in_map_iff in Hr as (r0 & <- & Hr0).
    rewrite List.Forall_forall in Hseq. specialize (Hseq r0 Hr0).
    by destruct (_ =? _).
Qed.

Lemma NoDup_map_snoc {A B : Type} (f : A -> B) (rows : list A) (row : A) :
  NoDup (map f rows) ->
  (forall r, In r rows -> f r <> f row) ->
  NoDup (map f (rows ++ [row])).
Proof.
  intros Hnodup Hfresh. rewrite map_app. simpl.
  apply NoDup_app. split; [done|]. split.
  - intros b Hb Hb'. apply list_elem_of_singleton in Hb' as ->.
    apply list_elem_of_In, in_map_iff in Hb as (r & Heq & Hr).
    by apply (Hfresh r Hr).
  - apply NoDup_singleton.
Qed.

Lemma existsb_false_In {A : Type} (f : A -> bool) (rows : list A) (r : A) :
  existsb f rows = false -> In r rows -> f r = false.
Proof.
  intros Hnone Hr. destruct (f r) eqn:Hfr; [|done].
  rewrite <- Hnone. symmetry. apply existsb_exists. by exists r.
Qed.

Lemma well_formed_add_token jti user_id expires_at revoked db :
  well_formed db ->
  well_formed
    (snd (session.commit_add_refresh_token jti user_id expires_at revoked db)).
Proof.
  intros [Huid Huname Htid Hjti Hseq].
  unfold session.commit_add_refresh_token.
  destruct (existsb _ (refresh_tokens db)) eqn:Htaken; simpl.
  - split; simpl; try done.
    eapply Forall_impl; [exact Hseq|]. simpl. intros r Hr. lia.
  - destruct (negb _); simpl.
    + split; simpl; try done.
      eapply Forall_impl; [exact Hseq|]. simpl. intros r Hr. lia.
    + assert (forall r, In r (refresh_tokens db) ->
                RefreshTokenORM.id r <> refresh_tokens_id_seq db + 1
                /\ RefreshTokenORM.jti r <> jti) as Hfresh.
      { intros r Hr.
        destruct (orb_false_elim _ _ (existsb_false_In _ _ r Htaken Hr))
          as [Hid Hj].
        split; [lia|]. by apply bool_decide_eq_false in Hj. }
      split; simpl; try done.
      * apply NoDup_map_snoc; [done|]. intros r Hr. apply (Hfresh r Hr).
      * apply NoDup_map_snoc; [done|]. intros r Hr. apply (Hfresh r Hr).
      * apply Forall_app. split.
        -- eapply Forall_impl; [exact Hseq|]. simpl. intros r Hr. lia.
        -- apply Forall_singleton. simpl. lia.
Qed.

Lemma well_formed_add_user new_id username password_hash role db :
  well_formed db ->
  well_formed
    (snd (session_users.commit_add_user new_id username password_hash role db)).
Proof.
  intros [Huid Huname Htid Hjti Hseq].
  unfold session_users.commit_add_user.
  destruct (existsb _ (users db)) eqn:Htaken; simpl; [done|].
  assert (forall u, In u (users db) ->
            UserORM.id u <> new_id /\ UserORM.username u <> username)
    as Hfresh.
  { intros u Hu.
    destruct (orb_false_elim _ _ (existsb_false_In _ _ u Htaken Hu))
      as [Hid Hname].
    split; [lia|]. by apply bool_decide_eq_false in Hname. }
  split; simpl; try done.
  - apply NoDup_map_snoc; [done|]. intros u Hu. apply (Hfresh u Hu).
  - apply NoDup_map_snoc; [done|]. intros u Hu. apply (Hfresh u Hu).
Qed.

(** X19.  The uniqueness constraints of the tables hold whatever the
    requests are and however two of them interleave: no request leaves two
    users with one id or one name, two refresh-token rows with one id or
    one [jti], or a row whose id the sequence has not handed out. *)
Theorem constraints_hold_under_every_schedule
    (env : Settings) (db : database) :
  well_formed db ->
  (forall schedule rq1 rq2,
      well_formed
        (snd (interleave schedule (serve env rq1) (serve env rq2) db)))
  /\ (forall rqs, well_formed (snd (serve_all env rqs db))).
Proof.
  intros Hdb. split.
  - intros schedule rq1 rq2.
    apply interleave_keeps; [| |done];
      apply serve_keeps;
      auto using well_formed_revoke_row, well_formed_add_token,
        well_formed_add_user.
  - intros rqs.
    apply serve_all_keeps;
      auto using well_formed_revoke_row, well_formed_add_token,
        well_formed_add_user.
Qed.

Lemma constraints_hold_under_every_schedule_witness :
  well_formed
    (snd (interleave [true; false; true; false; false; true]
            (serve default_settings (Login "alice" "alice12345" first_draw))
            (serve default_settings (Login "alice" "alice12345" first_draw))
            alice_db)).
Proof.
  apply (constraints_hold_under_every_schedule default_settings alice_db).
  split; simpl;
    try apply NoDup_singleton; try apply NoDup_nil_2; by constructor.
Defined.

(** ** What a rotation changes *)

Lemma map_revoke_others (rows : list RefreshTokenORM.t)
    (rt : RefreshTokenORM.t) :
  ~ In (RefreshTokenORM.id rt) (map RefreshTokenORM.id rows) ->
  map (fun row => if RefreshTokenORM.id row =? RefreshTokenORM.id rt
                  then RefreshTokenORM.set_revoked true row else row) rows
  = rows.
Proof.
  intros Hfresh. rewrite <- (map_id rows) at 2. apply map_ext_in.
  intros row Hrow.
  destruct (RefreshTokenORM.id row =? RefreshTokenORM.id rt) eqn:Hid; [|done].
  apply Z.eqb_eq in Hid. destruct Hfresh. rewrite <- Hid. by apply in_map.
Qed.

Lemma map_revoke_split (before after : list RefreshTokenORM.t)
    (rt : RefreshTokenORM.t) :
  NoDup (map RefreshTokenORM.id (before ++ rt :: after)) ->
  map (fun row => if RefreshTokenORM.id row =? RefreshTokenORM.id rt
                  then RefreshTokenORM.set_revoked true row else row)
    (before ++ rt :: after)
  = before ++ RefreshTokenORM.set_revoked true rt :: after.
Proof.
  rewrite !map_app. simpl. rewrite Z.eqb_refl.
  intros (_ & Hapart & Hrest)%NoDup_app.
  apply NoDup_cons in Hrest as [Hfresh _].
  rewrite !map_revoke_others; [done | |].
  - by rewrite <- list_elem_of_In.
  - intros Hin. apply list_elem_of_In in Hin.
    apply (Hapart _ Hin). by left.
Qed.

(** X20.  A rotation that succeeds changes the refresh-token table in two
    places only: it sets [revoked] on the one unrevoked row that carries
    the presented token's [jti], and it appends one unrevoked row with the
    new [jti].  Every other row, and the users table, is left as it was:
    rotating one token never revokes another. *)
Theorem rotation_touches_presented_row_only
    (env : Settings) (token : jwt.token) (amb : auth.ambient)
    (db db1 : database) (pair : TokenPair) :
  NoDup (map RefreshTokenORM.id (refresh_tokens db)) ->
  run (auth.refresh_token env token amb) db = (Return pair, db1) ->
  exists before rt after added,
    refresh_tokens db = before ++ rt :: after
    /\ RefreshTokenORM.revoked rt = false
    /\ refresh_tokens db1
       = (before ++ RefreshTokenORM.set_revoked true rt :: after) ++ [added]
    /\ RefreshTokenORM.jti added = auth.jti_refresh amb
    /\ RefreshTokenORM.revoked added = false
    /\ users db1 = users db.
Proof.
  intros Hnodup Hrun.
  destruct (refresh_token_returns env token amb db pair db1 Hrun)
    as (jti & user_id & rt & _ & Hrows & Hunrevoked & Hafter & _).
  destruct (run_after_revoke_detail env _ _ _ _ _ Hafter)
    as (user & _ & _ & _ & _ & ->).
  destruct (filter_singleton_In _ _ _ Hrows) as [Hin _].
  destruct (in_split _ _ Hin) as (before & after & Hsplit).
  eexists before, rt, after, _.
  split; [exact Hsplit|]. split; [exact Hunrevoked|].
  cbn [refresh_tokens users]. split.
  { f_equal. unfold revoke_row. simpl. rewrite Hsplit in Hnodup |- *.
    by apply map_revoke_split. }
  by repeat split.
Qed.

Lemma rotation_touches_presented_row_only_witness :
  exists before rt after added,
    refresh_tokens login_db = before ++ rt :: after
    /\ refresh_tokens (snd rotated)
       = (before ++ RefreshTokenORM.set_revoked true rt :: after) ++ [added]
    /\ RefreshTokenORM.jti added = auth.jti_refresh second_draw.
Proof.
  destruct rotated as [[pair|e] db1] eqn:Hrotated;
    [|apply (f_equal fst) in Hrotated; vm_compute in Hrotated;
      discriminate Hrotated].
  destruct (rotation_touches_presented_row_only default_settings alice_token
              second_draw login_db db1 pair)
    as (before & rt & after & added & Hsplit & _ & Hrows & Hjti & _).
  - apply NoDup_singleton.
  - exact Hrotated.
  - by exists before, rt, after, added.
Defined.

(** ** Registering *)

Section registering.
Variable env : Settings.

Lemma filter_username_none (rows : list UserORM.t) (username : string) :
  ~ In username (map UserORM.username rows) ->
  List.filter (fun row => bool_decide (UserORM.username row = username)) rows
  = [].
Proof.
  intros Hfree. apply filter_nil_Forall, List.Forall_forall.
  intros row Hrow. apply bool_decide_eq_false. intros Heq.
  apply Hfree. rewrite <- Heq. by apply in_map.
Qed.

Lemma filter_username_some (rows : list UserORM.t) (username : string) :
  NoDup (map UserORM.username rows) ->
  In username (map UserORM.username rows) ->
  exists row,
    In row rows
    /\ List.filter (fun r => bool_decide (UserORM.username r = username)) rows
       = [row].
Proof.
  induction rows as [|x rows IH]; intros Hnodup Hin; [done|].
  simpl in Hnodup. apply NoDup_cons in Hnodup as [Hfresh Hnodup].
  rewrite list_elem_of_In in Hfresh. simpl.
  destruct (bool_decide (UserORM.username x = username)) eqn:Hx.
  - apply bool_decide_eq_true in Hx. exists x. split; [by left|].
    rewrite filter_username_none; [done|]. by rewrite <- Hx.
  - apply bool_decide_eq_false in Hx. destruct Hin as [Hin|Hin]; [done|].
    destruct (IH Hnodup Hin) as (row & Hrow & ->). exists row.
    split; [by right | done].
Qed.

Lemma existsb_id_or_username (rows : list UserORM.t) (new_id : Z)
    (username : string) :
  (forall u, In u rows -> UserORM.id u <> new_id) ->
  ~ In username (map UserORM.username rows) ->
  existsb (fun u => (UserORM.id u =? new_id)
                    || bool_decide (UserORM.username u = username)) rows
  = false.
Proof.
  intros Hid Hname. destruct (existsb _ rows) eqn:Hany; [|done].
  apply existsb_exists in Hany as (u & Hu & Hor).
  apply orb_true_iff in Hor as [Heq|Heq].
  - apply Z.eqb_eq in Heq. by destruct (Hid u Hu).
  - apply bool_decide_eq_true in Heq. destruct Hname. rewrite <- Heq.
    by apply in_map.
Qed.

Lemma run_register_new username password new_id db :
  (forall u, In u (users db) -> UserORM.id u <> new_id) ->
  ~ In username (map UserORM.username (users db)) ->
  run (auth_endpoints.register env username password new_id) db
  = (Return (Build_UserPublic new_id username "user"),
     Build_database
       (users db
          ++ [UserORM.Build_t new_id username
                (security.hash_password env password) "user"])
       (refresh_tokens db) (refresh_tokens_id_seq db)).
Proof.
  intros Hid Hname. unfold auth_endpoints.register.
  cbn [run session.select_user_by_username].
  rewrite (filter_username_none _ _ Hname). cbn [scalar_one_or_none run].
  unfold session_users.commit_add_user.
  by rewrite (existsb_id_or_username _ _ _ Hid Hname).
Qed.

Lemma run_register_taken username password new_id db :
  NoDup (map UserORM.username (users db)) ->
  In username (map UserORM.username (users db)) ->
  run (auth_endpoints.register env username password new_id) db
  = (Raise (HTTPException 400 "Username already exists" []), db).
Proof.
  intros Hnodup Htaken. unfold auth_endpoints.register.
  cbn [run session.select_user_by_username].
  by destruct (filter_username_some _ _ Hnodup Htaken) as (row & _ & ->).
Qed.

End registering.

(** X21.  [register] creates an account only under a name that is not
    taken.  On a users table with unique names and a fresh id from the
    sequence: a taken name is answered 400 "Username already exists" and
    nothing is written, whatever the password; a free name stores one new
    row, holding [hash_password] of the password and always the role
    "user", and is answered with the new id, the name and that role. *)
Theorem register_creates_plain_user_once
    (env : Settings) (username password : string) (new_id : Z)
    (db : database) :
  NoDup (map UserORM.username (users db)) ->
  (forall u, In u (users db) -> UserORM.id u <> new_id) ->
  (In username (map UserORM.username (users db)) ->
   run (auth_endpoints.register env username password new_id) db
   = (Raise (HTTPException 400 "Username already exists" []), db))
  /\ (~ In username (map UserORM.username (users db)) ->
      run (auth_endpoints.register env username password new_id) db
      = (Return (Build_UserPublic new_id username "user"),
         Build_database
           (users db
              ++ [UserORM.Build_t new_id username
                    (security.hash_password env password) "user"])
           (refresh_tokens db) (refresh_tokens_id_seq db))).
Proof.
  intros Hnodup Hid. split.
  - by apply run_register_taken.
  - by apply run_register_new.
Qed.

Lemma register_creates_plain_user_once_witness :
  run (auth_endpoints.register default_settings "alice" "another-password" 2)
    login_db
  = (Raise (HTTPException 400 "Username already exists" []), login_db).
Proof.
  apply (register_creates_plain_user_once default_settings "alice"
           "another-password" 2 login_db).
  - apply NoDup_singleton.
  - intros u [<-|[]]. simpl. lia.
  - simpl. by left.
Defined.

(** X22.  A registered account can log in: after [register] has returned,
    [login] with the same name and password returns a pair whose access
    token is issued for the new id with the role "user", provided the
    password context verifies a password against its own hash, the clock
    has not passed the new refresh token's expiry and the drawn [jti] is
    free.  The same login with a password the context does not verify is
    answered 401 "Invalid credentials". *)
Theorem register_then_login
    (env : Settings) (username password other : string) (new_id : Z)
    (amb : auth.ambient) (db db1 : database) (public : UserPublic) :
  run (auth_endpoints.register env username password new_id) db
  = (Return public, db1) ->
  NoDup (map UserORM.username (users db)) ->
  security.verify_password env password (security.hash_password env password)
  = true ->
  security.verify_password env other (security.hash_password env password)
  = false ->
  refresh_unexpired env (auth.t_refresh amb) (auth.t_verify_new amb) ->
  no_conflict (auth.jti_refresh amb) db1 ->
  (exists db2,
      run (auth.login env username password amb) db1
      = (Return
           (Build_TokenPair
              (security.create_access_token env new_id "user"
                 (auth.t_access amb) (auth.jti_access amb))
              (fst (security.create_refresh_token env new_id
                      (auth.t_refresh amb) (auth.jti_refresh amb)))
              "bearer"), db2))
  /\ run (auth.login env username other amb) db1
     = (Raise (HTTPException 401 "Invalid credentials" []), db1).
Proof.
  intros Hregister Hnodup Hverify Hother Hlive Hfree.
  unfold auth_endpoints.register in Hregister.
  cbn [run session.select_user_by_username] in Hregister.
  destruct (in_dec String.string_dec username
              (map UserORM.username (users db))) as [Htaken|Hname].
  { destruct (filter_username_some _ _ Hnodup Htaken) as (row & _ & Hrow).
    rewrite Hrow in Hregister. discriminate Hregister. }
  rewrite (filter_username_none _ _ Hname) in Hregister.
  cbn [scalar_one_or_none run] in Hregister.
  unfold session_users.commit_add_user in Hregister.
  destruct (existsb _ (users db)); [discriminate Hregister|].
  cbn [run] in Hregister. injection Hregister as _ <-.
  set (row := UserORM.Build_t new_id username
                (security.hash_password env password) "user") in *.
  set (db1 := Build_database (users db ++ [row]) (refresh_tokens db)
                (refresh_tokens_id_seq db)) in *.
  assert (List.filter (fun r => bool_decide (UserORM.username r = username))
            (users db1) = [row]) as Hrow.
  { simpl. rewrite List.filter_app, (filter_username_none _ _ Hname). simpl.
    by rewrite bool_decide_eq_true_2. }
  split.
  - eexists.
    rewrite (run_login_verified env username password amb db1 row Hrow Hverify).
    rewrite (run_issue_pair_accepts env row amb db1 Hlive Hfree);
      [reflexivity|].
    simpl. apply in_app_iff. right. by left.
  - unfold auth.login. cbn [run session.select_user_by_username].
    rewrite Hrow. cbn [scalar_one_or_none UserORM.password_hash row].
    by rewrite Hother.
Qed.

Lemma register_then_login_witness :
  run (auth.login default_settings "bob" "wrong-secret" second_draw)
    (snd bob_registered)
  = (Raise (HTTPException 401 "Invalid credentials" []), snd bob_registered).
Proof.
  destruct bob_registered as [[public|e] db1] eqn:Hregister;
    [|apply (f_equal fst) in Hregister; vm_compute in Hregister;
      discriminate Hregister].
  pose proof (f_equal snd Hregister) as Hdb1. vm_compute in Hdb1.
  destruct (register_then_login default_settings "bob" "bob-secret"
              "wrong-secret" 2 second_draw login_db db1 public Hregister)
    as [_ Hwrong].
  - apply NoDup_singleton.
  - reflexivity.
  - reflexivity.
  - unfold refresh_unexpired. vm_compute. discriminate.
  - rewrite <- Hdb1. unfold no_conflict. vm_compute.
    repeat constructor; discriminate.
  - exact Hwrong.
Defined.

(** ** Roles *)

Lemma serve_all_keeps_user (env : Settings) (user : UserORM.t)
    (rqs : list request) (db : database) :
  well_formed db -> In user (users db) ->
  well_formed (snd (serve_all env rqs db))
  /\ In user (users (snd (serve_all env rqs db))).
Proof.
  intros Hdb Hin.
  apply (serve_all_keeps env
           (fun db' => well_formed db' /\ In user (users db'))); [| | |done].
  - intros rt db' [Hwf Hu]. split; [by apply well_formed_revoke_row | done].
  - intros jti user_id expires_at revoked db' [Hwf Hu].
    split; [by apply well_formed_add_token | by rewrite users_add_token].
  - intros new_id username password_hash role db' [Hwf Hu].
    split; [by apply well_formed_add_user|].
    unfold session_users.commit_add_user. destruct (existsb _ _); [done|].
    simpl. apply in_app_iff. by left.
Qed.

(** X23.  No request changes what [admin_only] answers a user: after any
    sequence of registrations, logins, rotations and reads, an unexpired
    access token for a stored user is answered "Hello admin <name>!" when
    the stored role is "admin" and 403 "Forbidden" otherwise, whatever role
    the token claims.  No request of the application turns a user into an
    admin. *)
Theorem no_request_changes_admin_access
    (env : Settings) (user : UserORM.t) (db : database) (rqs : list request)
    (role_claim : string) (issued : Z) (jti : string) (now : Z) :
  well_formed db ->
  In user (users db) ->
  access_unexpired env issued now ->
  run (auth_endpoints.admin_only env
         (security.create_access_token env (UserORM.id user) role_claim
            issued jti) now)
    (snd (serve_all env rqs db))
  = (if bool_decide (UserORM.role user = "admin")
     then Return ("Hello admin " +:+ UserORM.username user +:+ "!")
     else Raise (HTTPException 403 "Forbidden" []),
     snd (serve_all env rqs db)).
Proof.
  intros Hdb Hin Hlive.
  destruct (serve_all_keeps_user env user rqs db Hdb Hin) as [[Hids _ _ _ _] Hin'].
  unfold auth_endpoints.admin_only, deps.require_role.
  rewrite !run_bind, (run_get_current_user env _ _ _ _ _ _ Hlive).
  rewrite (filter_by_unique_id _ _ Hids Hin'). cbn [scalar_one_or_none].
  by destruct (bool_decide _).
Qed.

Lemma no_request_changes_admin_access_witness :
  fst (run (auth_endpoints.admin_only default_settings
              (security.create_access_token default_settings
                 (UserORM.id alice) "admin" 1700000061000000 "a-0009")
              1700000062000000)
         (snd (serve_all default_settings
                 [Register "alice" "alice12345" 2;
                  Register "admin" "admin-secret" 1;
                  Login "alice" "alice12345" second_draw]
                 login_db)))
  = Raise (HTTPException 403 "Forbidden" []).
Proof.
  rewrite (no_request_changes_admin_access default_settings alice login_db
             [Register "alice" "alice12345" 2;
              Register "admin" "admin-secret" 1;
              Login "alice" "alice12345" second_draw]
             "admin" 1700000061000000 "a-0009" 1700000062000000).
  - reflexivity.
  - split; simpl; try apply NoDup_singleton; repeat constructor.
    vm_compute. discriminate.
  - vm_compute. by left.
  - unfold access_unexpired. vm_compute. discriminate.
Defined.

(** ** Lockouts of different identities *)

Section lockout_identities.
Import Redis RedisFacts.

Lemma colon_separated_inj (u u' ip ip' : string) :
  colon_free u = true -> colon_free u' = true ->
  u +:+ ":" +:+ ip = u' +:+ ":" +:+ ip' -> u = u' /\ ip = ip'.
Proof.
  revert u'. induction u as [|c u IH]; intros [|c' u'] Hu Hu' Heq; simpl in *.
  - injection Heq as Heq. by subst.
  - injection Heq as <- _.
    rewrite bool_decide_eq_true_2 in Hu' by done. discriminate Hu'.
  - injection Heq as -> _.
    rewrite bool_decide_eq_true_2 in Hu by done. discriminate Hu.
  - injection Heq as -> Heq.
    apply andb_true_iff in Hu as [_ Hu]. apply andb_true_iff in Hu' as [_ Hu'].
    destruct (IH u' Hu Hu' Heq) as [-> ->]. done.
Qed.

Variable cfg : bruteforce.BruteForceConfig.

Lemma bf_keys_apart (username ip username' ip' : string) :
  colon_free username = true -> colon_free username' = true ->
  (username', ip') <> (username, ip) ->
  bruteforce._fail_key cfg username ip <> bruteforce._fail_key cfg username' ip'
  /\ bruteforce._fail_key cfg username ip <> bruteforce._lock_key cfg username' ip'
  /\ bruteforce._lock_key cfg username ip <> bruteforce._fail_key cfg username' ip'
  /\ bruteforce._lock_key cfg username ip <> bruteforce._lock_key cfg username' ip'.
Proof.
  intros Hu Hu' Hne.
  unfold bruteforce._fail_key, bruteforce._lock_key.
  repeat split; intros Heq;
    apply (inj (String.append "bf:")) in Heq;
    apply (inj (String.append (bruteforce.key_prefix cfg))) in Heq;
    try discriminate Heq.
  - apply (inj (String.append ":fail:")) in Heq.
    destruct (colon_separated_inj _ _ _ _ Hu Hu' Heq) as [-> ->]. by apply Hne.
  - apply (inj (String.append ":lock:")) in Heq.
    destruct (colon_separated_inj _ _ _ _ Hu Hu' Heq) as [-> ->]. by apply Hne.
Qed.

(** [register_failure] writes its two keys and no other. *)
Lemma register_failure_frame username ip t_incr t_set (r : store) key :
  key <> bruteforce._fail_key cfg username ip ->
  key <> bruteforce._lock_key cfg username ip ->
  snd (bruteforce.register_failure cfg username ip t_incr t_set r) !! key
  = r !! key.
Proof.
  intros Hfk Hlk. unfold bruteforce.register_failure, bruteforce._incr_with_ttl.
  pose proof (incr_expire_script_frame (bruteforce._fail_key cfg username ip)
                (py_str (bruteforce.window_seconds cfg)) t_incr r key Hfk)
    as Hscript.
  destruct (incr_expire_script _ _ t_incr r) as [[current|e] r1]; [|done].
  simpl in Hscript. destruct (_ <=? current); [|done].
  unfold SET_EX. destruct (_ <=? 0); [done|]. simpl.
  by rewrite lookup_insert_ne.
Qed.

(** [clear_state] deletes its two keys and no other. *)
Lemma clear_state_frame username ip now (r : store) key :
  key <> bruteforce._fail_key cfg username ip ->
  key <> bruteforce._lock_key cfg username ip ->
  snd (bruteforce.clear_state cfg username ip now r) !! key = r !! key.
Proof.
  intros Hfk Hlk. unfold bruteforce.clear_state. simpl.
  by rewrite !lookup_delete_ne.
Qed.

(** What the two checks answer depends on their two keys only. *)
Lemma bruteforce_answers_local username ip (r1 r2 : store) :
  r1 !! bruteforce._fail_key cfg username ip
    = r2 !! bruteforce._fail_key cfg username ip ->
  r1 !! bruteforce._lock_key cfg username ip
    = r2 !! bruteforce._lock_key cfg username ip ->
  (forall t_exists t_ttl,
      fst (bruteforce.ensure_not_locked cfg username ip t_exists t_ttl r1)
      = fst (bruteforce.ensure_not_locked cfg username ip t_exists t_ttl r2))
  /\ (forall t_incr t_set,
        fst (bruteforce.register_failure cfg username ip t_incr t_set r1)
        = fst (bruteforce.register_failure cfg username ip t_incr t_set r2)).
Proof.
  intros Hfk Hlk. split.
  - intros t_exists t_ttl.
    unfold bruteforce.ensure_not_locked, bruteforce._ttl, EXISTS, TTL.
    rewrite (find_local _ t_exists r1 r2 Hlk), (find_local _ t_ttl r1 r2 Hlk).
    by destruct (negb _).
  - intros t_incr t_set.
    unfold bruteforce.register_failure, bruteforce._incr_with_ttl.
    destruct (incr_expire_script_local (bruteforce._fail_key cfg username ip)
                (py_str (bruteforce.window_seconds cfg)) t_incr r1 r2 Hfk)
      as [Hfst _].
    destruct (incr_expire_script _ _ t_incr r1) as [[c1|e1] s1];
      destruct (incr_expire_script _ _ t_incr r2) as [[c2|e2] s2];
      simpl in Hfst |- *; try discriminate Hfst; [|by injection Hfst as ->].
    injection Hfst as <-. destruct (_ <=? c1); [|done].
    unfold SET_EX. by destruct (_ <=? 0).
Qed.

End lockout_identities.

(** X24.  Lockouts are per (username, ip): when neither username contains
    a colon, failures registered and states cleared for one pair change
    neither the failure count nor the lock of a different pair, so the
    answers the other pair gets from [ensure_not_locked] and
    [register_failure] are the ones it would have got anyway. *)
Theorem lockout_is_per_identity
    (cfg : bruteforce.BruteForceConfig) (username ip username' ip' : string)
    (r : Redis.store) :
  colon_free username = true ->
  colon_free username' = true ->
  (username', ip') <> (username, ip) ->
  forall r1,
    (exists t_incr t_set,
        r1 = snd (bruteforce.register_failure cfg username' ip' t_incr t_set r))
    \/ (exists now, r1 = snd (bruteforce.clear_state cfg username' ip' now r)) ->
    (forall t_exists t_ttl,
        fst (bruteforce.ensure_not_locked cfg username ip t_exists t_ttl r1)
        = fst (bruteforce.ensure_not_locked cfg username ip t_exists t_ttl r))
    /\ (forall t_incr t_set,
          fst (bruteforce.register_failure cfg username ip t_incr t_set r1)
          = fst (bruteforce.register_failure cfg username ip t_incr t_set r)).
Proof.
  intros Hu Hu' Hne r1 Hr1.
  destruct (bf_keys_apart cfg username ip username' ip' Hu Hu' Hne)
    as (Hff & Hfl & Hlf & Hll).
  apply bruteforce_answers_local.
  - destruct Hr1 as [(t_incr & t_set & ->)|(now & ->)].
    + by apply register_failure_frame.
    + by apply clear_state_frame.
  - destruct Hr1 as [(t_incr & t_set & ->)|(now & ->)].
    + by apply register_failure_frame.
    + by apply clear_state_frame.
Qed.

Lemma lockout_is_per_identity_witness :
  fst (bruteforce.ensure_not_locked bf_demo.CFG "alice" "127.0.0.1" 5000 5000
         (snd (bruteforce.register_failure bf_demo.CFG "alice" "127.0.0.2"
                 4000 4001
                 {[ "bf:login-sim:fail:alice:127.0.0.2"
                    := Redis.Entry "4" (Some 120000) ]})))
  = Return tt.
Proof.
  destruct (lockout_is_per_identity bf_demo.CFG "alice" "127.0.0.1" "alice"
              "127.0.0.2"
              {[ "bf:login-sim:fail:alice:127.0.0.2"
                 := Redis.Entry "4" (Some 120000) ]})
    with (r1 := snd (bruteforce.register_failure bf_demo.CFG "alice"
                       "127.0.0.2" 4000 4001
                       {[ "bf:login-sim:fail:alice:127.0.0.2"
                          := Redis.Entry "4" (Some 120000) ]}))
    as [Hcheck _].
  - reflexivity.
  - reflexivity.
  - discriminate.
  - left. by exists 4000, 4001.
  - rewrite Hcheck. reflexivity.
Defined.

(** X25.  The keys join username and ip with a colon and nothing more, so
    a pair whose username ends in ":<text>" has the failure key and the
    lock key of the pair with the shorter username and "<text>:" in front
    of the ip: after a failure registered for the one,
    [ensure_not_locked] answers the other exactly as it answers the one. *)
Theorem colon_in_username_shares_lockout
    (cfg : bruteforce.BruteForceConfig) (username text ip : string) :
  bruteforce._fail_key cfg (username +:+ ":" +:+ text) ip
  = bruteforce._fail_key cfg username (text +:+ ":" +:+ ip)
  /\ bruteforce._lock_key cfg (username +:+ ":" +:+ text) ip
     = bruteforce._lock_key cfg username (text +:+ ":" +:+ ip)
  /\ forall t_incr t_set t_exists t_ttl r,
       bruteforce.ensure_not_locked cfg username (text +:+ ":" +:+ ip)
         t_exists t_ttl
         (snd (bruteforce.register_failure cfg (username +:+ ":" +:+ text) ip
                 t_incr t_set r))
       = bruteforce.ensure_not_locked cfg (username +:+ ":" +:+ text) ip
           t_exists t_ttl
           (snd (bruteforce.register_failure cfg (username +:+ ":" +:+ text) ip
                   t_incr t_set r)).
Proof.
  assert (forall a b c : string, (a +:+ b) +:+ c = a +:+ (b +:+ c)) as Hassoc.
  { intros a b c. induction a as [|x a IH]; [done|].
    change (String x ((a +:+ b) +:+ c) = String x (a +:+ b +:+ c)).
    by rewrite IH. }
  assert (bruteforce._lock_key cfg (username +:+ ":" +:+ text) ip
          = bruteforce._lock_key cfg username (text +:+ ":" +:+ ip)) as Hlk.
  { unfold bruteforce._lock_key. by rewrite !Hassoc. }
  split; [|split; [exact Hlk|]].
  - unfold bruteforce._fail_key. by rewrite !Hassoc.
  - intros t_incr t_set t_exists t_ttl r.
    unfold bruteforce.ensure_not_locked. by rewrite Hlk.
Qed.
